(** * MediBuddy real-time engine: knowledge graph and change validator

    A shallow embedding of [realtime_engine.py] (classes [AtomicFact],
    [KnowledgeGraph], [ChangeValidator], [PharmaFirehose], the
    autonomous agents and [PharmaBrain]) and of the endpoint of
    [main.py] that reads the change feed, and the properties of the fact
    store, the change feed, the subscriber notification, the validation
    pipeline and the loops of the brain.

    Conventions of the embedding.
    - A Python [float] is a binary64 value: Rocq's primitive [float],
      with the same round-to-nearest-even arithmetic.
    - A Python [int] is a [Z]; [bool] is a subtype of [int], as in Python.
    - [str] is [string]; field names are ASCII text, so [str.lower] only
      moves the letters [A-Z].
    - [datetime] is a count of microseconds since [datetime.min];
      [datetime.now()] is an explicit argument [now].
    - A raised exception is a value of [pyres]; what a subscriber's
      callback raises is an [Outcome].
    - The tasks of the event loop take turns: a run of the brain is a
      list of events, each a method called or a loop woken. *)

From Stdlib Require Import ZArith List String Ascii Bool Lia Sorted.
From Stdlib Require Import Floats.
From Stdlib Require Import DecimalString.
Import ListNotations.

Set Warnings "-inexact-float".
Open Scope Z_scope.

(* ================================================================== *)
(** ** Python values and the operations the engine applies to them *)
(* ================================================================== *)

Module Py.

(** The exceptions that the modelled operations raise. *)
Inductive PyExc : Type :=
  | TypeError
  | OverflowError.

(** The result of evaluating an expression that may raise. *)
Inductive pyres (A : Type) : Type :=
  | Ret (a : A)
  | Raise (e : PyExc).
Arguments Ret {A} a.
Arguments Raise {A} e.

Definition bind {A B : Type} (m : pyres A) (k : A -> pyres B) : pyres B :=
  match m with
  | Ret a => k a
  | Raise e => Raise e
  end.

Notation "x <- m ;; k" := (bind m (fun x => k))
  (at level 61, m at next level, right associativity).

(** The values a fact carries ([value: Any]): the scalars the engine's
    producers submit. *)
Inductive PyVal : Type :=
  | VNone
  | VBool (b : bool)
  | VInt (z : Z)
  | VFloat (f : float)
  | VStr (s : string).

(** [bool] and [int] values seen as integers ([True] is 1). *)
Definition as_int (v : PyVal) : option Z :=
  match v with
  | VBool b => Some (Z.b2z b)
  | VInt z => Some z
  | _ => None
  end.

(** The exact order between a float and an integer, as Python compares
    them (no conversion of the integer, so no rounding); [None] for nan. *)
Definition float_compare_Z (f : float) (z : Z) : option comparison :=
  match Prim2SF f with
  | S754_nan => None
  | S754_zero _ => Some (0 ?= z)
  | S754_infinity s => Some (if s then Lt else Gt)
  | S754_finite s m e =>
      let sm := if s then Z.neg m else Z.pos m in
      if 0 <=? e then Some (sm * 2 ^ e ?= z)
      else Some (sm ?= z * 2 ^ (- e))
  end.

(** [float(z)]: correctly rounded, [OverflowError] beyond the range. *)
Definition float_of_Z (z : Z) : pyres float :=
  match binary_normalize prec emax z 0 false with
  | S754_infinity _ => Raise OverflowError
  | sf => Ret (SF2Prim sf)
  end.

(** [a == b]. Numbers compare by value across [bool], [int] and
    [float]; nan equals nothing, itself included. *)
Definition py_eq (a b : PyVal) : bool :=
  match a, b with
  | VNone, VNone => true
  | VStr s, VStr t => String.eqb s t
  | VFloat f, VFloat g => PrimFloat.eqb f g
  | VFloat f, (VBool _ | VInt _) =>
      match as_int b with
      | Some z => match float_compare_Z f z with Some Eq => true | _ => false end
      | None => false
      end
  | (VBool _ | VInt _), VFloat g =>
      match as_int a with
      | Some z => match float_compare_Z g z with Some Eq => true | _ => false end
      | None => false
      end
  | (VBool _ | VInt _), (VBool _ | VInt _) =>
      match as_int a, as_int b with
      | Some x, Some y => x =? y
      | _, _ => false
      end
  | _, _ => false
  end.

(** [a != b]. *)
Definition py_ne (a b : PyVal) : bool := negb (py_eq a b).

(** [bool(v)]. *)
Definition truthy (v : PyVal) : bool :=
  match v with
  | VNone => false
  | VBool b => b
  | VInt z => negb (z =? 0)
  | VFloat f => negb (PrimFloat.eqb f 0%float)
  | VStr s => negb (String.eqb s EmptyString)
  end.

(** [a or b]. *)
Definition py_or (a b : PyVal) : PyVal := if truthy a then a else b.

(** [isinstance(v, (int, float))]. *)
Definition is_number (v : PyVal) : bool :=
  match v with
  | VBool _ | VInt _ | VFloat _ => true
  | _ => false
  end.

(** [a - b]. *)
Definition py_sub (a b : PyVal) : pyres PyVal :=
  match a, b with
  | VFloat f, VFloat g => Ret (VFloat (f - g)%float)
  | VFloat f, (VBool _ | VInt _) =>
      match as_int b with
      | Some y => g <- float_of_Z y ;; Ret (VFloat (f - g)%float)
      | None => Raise TypeError
      end
  | (VBool _ | VInt _), VFloat g =>
      match as_int a with
      | Some x => f <- float_of_Z x ;; Ret (VFloat (f - g)%float)
      | None => Raise TypeError
      end
  | (VBool _ | VInt _), (VBool _ | VInt _) =>
      match as_int a, as_int b with
      | Some x, Some y => Ret (VInt (x - y))
      | _, _ => Raise TypeError
      end
  | _, _ => Raise TypeError
  end.

(** [abs(v)]. *)
Definition py_abs (v : PyVal) : pyres PyVal :=
  match v with
  | VBool b => Ret (VInt (Z.b2z b))
  | VInt z => Ret (VInt (Z.abs z))
  | VFloat f => Ret (VFloat (PrimFloat.abs f))
  | _ => Raise TypeError
  end.

(** The order between a value and an integer literal: [v < n], [v > n],
    [v >= n]. Ordering [None] or a [str] against an [int] raises. *)
Definition py_compare_int (v : PyVal) (n : Z) : pyres (option comparison) :=
  match v with
  | VBool b => Ret (Some (Z.b2z b ?= n))
  | VInt z => Ret (Some (z ?= n))
  | VFloat f => Ret (float_compare_Z f n)
  | _ => Raise TypeError
  end.

Definition py_lt_int (v : PyVal) (n : Z) : pyres bool :=
  c <- py_compare_int v n ;;
  Ret (match c with Some Lt => true | _ => false end).

Definition py_gt_int (v : PyVal) (n : Z) : pyres bool :=
  c <- py_compare_int v n ;;
  Ret (match c with Some Gt => true | _ => false end).

Definition py_ge_int (v : PyVal) (n : Z) : pyres bool :=
  c <- py_compare_int v n ;;
  Ret (match c with Some Gt | Some Eq => true | _ => false end).

(** [str.lower] on ASCII text. *)
Definition lower_ascii (c : ascii) : ascii :=
  let n := nat_of_ascii c in
  if ((65 <=? n) && (n <=? 90))%nat then ascii_of_nat (n + 32) else c.

Fixpoint lower (s : string) : string :=
  match s with
  | EmptyString => EmptyString
  | String c t => String (lower_ascii c) (lower t)
  end.

(** [s.startswith(p)]. *)
Definition startswith (s p : string) : bool := String.prefix p s.

(** [needle in hay]. *)
Fixpoint contains (needle hay : string) : bool :=
  String.prefix needle hay ||
  match hay with
  | EmptyString => false
  | String _ t => contains needle t
  end.

End Py.
Import Py.

(* ================================================================== *)
(** ** Layer 3: the atomic knowledge graph *)
(* ================================================================== *)

(** [class ChangeImportance(int, Enum)]. *)
Inductive ChangeImportance : Type :=
  | TRIVIAL
  | LOW
  | MINOR
  | MODERATE
  | NOTABLE
  | SIGNIFICANT
  | HIGH
  | MAJOR
  | CRITICAL
  | URGENT.

(** [importance.value]. *)
Definition importance_value (i : ChangeImportance) : Z :=
  match i with
  | TRIVIAL => 1
  | LOW => 2
  | MINOR => 3
  | MODERATE => 4
  | NOTABLE => 5
  | SIGNIFICANT => 6
  | HIGH => 7
  | MAJOR => 8
  | CRITICAL => 9
  | URGENT => 10
  end.

(** A [datetime]: microseconds since [datetime.min]. *)
Definition datetime : Type := Z.

(** [@dataclass class AtomicFact]. *)
Record AtomicFact : Type := mkAtomicFact {
  id : string;
  entity_type : string;
  entity_id : string;
  field : string;
  value : PyVal;
  previous_value : PyVal;
  source : string;
  source_url : option string;
  confidence : float;
  verified_by : option string;
  effective_date : option datetime;
  created_at : datetime;
  updated_at : datetime;
  importance : ChangeImportance
}.

(** [fact.previous_value = v]. *)
Definition set_previous_value (v : PyVal) (f : AtomicFact) : AtomicFact :=
  mkAtomicFact (id f) (entity_type f) (entity_id f) (field f) (value f) v
    (source f) (source_url f) (confidence f) (verified_by f)
    (effective_date f) (created_at f) (updated_at f) (importance f).

(** [fact.updated_at = t]. *)
Definition set_updated_at (t : datetime) (f : AtomicFact) : AtomicFact :=
  mkAtomicFact (id f) (entity_type f) (entity_id f) (field f) (value f)
    (previous_value f) (source f) (source_url f) (confidence f)
    (verified_by f) (effective_date f) (created_at f) t (importance f).

(** The key string [f"{entity_type}:{entity_id}:{field}"]. *)
Definition make_key (etype eid fld : string) : string :=
  (etype ++ ":" ++ eid ++ ":" ++ fld)%string.

Definition fact_key (f : AtomicFact) : string :=
  make_key (entity_type f) (entity_id f) (field f).

(** [self.facts: Dict[str, AtomicFact]]. A Python dict iterates in the
    order in which its keys were first inserted, and assigning to a key
    it holds keeps the key's place: an association list, updated in
    place. *)
Definition FactDict : Type := list (string * AtomicFact).

Fixpoint dict_get (k : string) (d : FactDict) : option AtomicFact :=
  match d with
  | [] => None
  | (k', v) :: rest => if String.eqb k' k then Some v else dict_get k rest
  end.

Fixpoint dict_set (k : string) (v : AtomicFact) (d : FactDict) : FactDict :=
  match d with
  | [] => [(k, v)]
  | (k', v') :: rest =>
      if String.eqb k' k then (k', v) :: rest else (k', v') :: dict_set k v rest
  end.

(** What a subscriber can read of the graph while its callback runs. *)
Record Store : Type := mkStore {
  facts : FactDict;
  change_history : list AtomicFact
}.

(** How a call of a subscriber's callback ends. It returns; or it raises
    an [Exception], which the handler of the loop catches and prints as
    the text [str(e)], carried here; or it raises what [except Exception]
    lets through: [asyncio.CancelledError], [KeyboardInterrupt],
    [SystemExit], [GeneratorExit], named here by the text [e]. An
    [Exception] whose [str] raises while the handler formats its line
    escapes in the same way, with what [str] raised. *)
Inductive Outcome : Type :=
  | Returned
  | Raised (e : string)
  | Escaped (e : string).

(** A subscriber's callback. It is handed the fact, and can read the
    graph it subscribed to; it is an observer and writes neither to the
    graph nor to the fact. [asyncio.iscoroutinefunction] tells the two
    kinds apart. *)
Inductive Callback : Type :=
  | PlainFunction (run : Store -> AtomicFact -> Outcome)
  | CoroutineFunction (run : Store -> AtomicFact -> Outcome).

Definition iscoroutinefunction (cb : Callback) : bool :=
  match cb with
  | PlainFunction _ => false
  | CoroutineFunction _ => true
  end.

(** [class KnowledgeGraph]. *)
Record KnowledgeGraph : Type := mkKnowledgeGraph {
  store : Store;
  subscribers : list Callback
}.

(** [KnowledgeGraph.__init__]. *)
Definition empty_graph : KnowledgeGraph :=
  mkKnowledgeGraph (mkStore [] []) [].

(** [KnowledgeGraph.subscribe]. *)
Definition subscribe (cb : Callback) (kg : KnowledgeGraph) : KnowledgeGraph :=
  mkKnowledgeGraph (store kg) (subscribers kg ++ [cb]).

(** One call of a callback during [_notify_subscribers]: which
    subscriber, the fact it was handed, the graph as it could read it at
    that moment, and how the call ended. *)
Record Delivery : Type := mkDelivery {
  d_subscriber : nat;
  d_fact : AtomicFact;
  d_seen : Store;
  d_outcome : Outcome
}.

Definition body (cb : Callback) : Store -> AtomicFact -> Outcome :=
  match cb with
  | PlainFunction run | CoroutineFunction run => run
  end.

(** [await callback(fact)] for a coroutine function, [callback(fact)]
    otherwise. *)
Definition call (cb : Callback) (st : Store) (fact : AtomicFact) : Outcome :=
  if iscoroutinefunction cb then body cb st fact else body cb st fact.

(** What a run of the loop of [_notify_subscribers] leaves behind: the
    calls made, the lines printed by the [except] branch, and the
    exception that left the loop, if one did. *)
Record Notification : Type := mkNotification {
  n_calls : list Delivery;
  n_printed : list string;
  n_escaped : option string
}.

(** The loop of [_notify_subscribers], from subscriber number [i] on.
    An exception that the handler does not catch ends the loop: the
    subscribers after it are not called. *)
Fixpoint notify_from (i : nat) (st : Store) (fact : AtomicFact)
    (subs : list Callback) : Notification :=
  match subs with
  | [] => mkNotification [] [] None
  | callback :: rest =>
      match call callback st fact with
      | Returned =>
          let n := notify_from (S i) st fact rest in
          mkNotification (mkDelivery i fact st Returned :: n_calls n)
            (n_printed n) (n_escaped n)
      | Raised e =>
          let n := notify_from (S i) st fact rest in
          mkNotification (mkDelivery i fact st (Raised e) :: n_calls n)
            (("Subscriber notification failed: " ++ e)%string :: n_printed n)
            (n_escaped n)
      | Escaped e =>
          mkNotification [mkDelivery i fact st (Escaped e)] [] (Some e)
      end
  end.

(** [KnowledgeGraph._notify_subscribers]. *)
Definition _notify_subscribers (kg : KnowledgeGraph) (fact : AtomicFact)
    : Notification :=
  notify_from 0 (store kg) fact (subscribers kg).

(** What a call of [upsert_fact] leaves behind. [returned] is the value
    of the [return] statement the call takes; the caller gets it unless
    [escaped] names an exception, which then leaves [upsert_fact] in its
    place, the graph being already as [graph_after] has it. *)
Record Upsert : Type := mkUpsert {
  graph_after : KnowledgeGraph;
  returned : bool;
  deliveries : list Delivery;
  printed : list string;
  escaped : option string
}.

(** What the caller of [upsert_fact] gets. *)
Inductive Result : Type :=
  | Returns (b : bool)
  | Raises (e : string).

Definition result (r : Upsert) : Result :=
  match escaped r with
  | Some e => Raises e
  | None => Returns (returned r)
  end.

(** [KnowledgeGraph.upsert_fact]. The submitted object is the one that
    is appended to the history and stored, so the history entry carries
    the [updated_at] assigned after the append. The subscribers are
    notified after the graph has changed, and an exception that escapes
    the notification leaves the call with the graph so changed. *)
Definition upsert_fact (now : datetime) (fact : AtomicFact)
    (kg : KnowledgeGraph) : Upsert :=
  let k := fact_key fact in
  let checked :=
    match dict_get k (facts (store kg)) with
    | Some existing =>
        if py_eq (value existing) (value fact) then None
        else Some (set_previous_value (value existing) fact, true)
    | None => Some (fact, false)
    end in
  match checked with
  | None => mkUpsert kg false [] [] None
  | Some (fact, recorded) =>
      let fact := set_updated_at now fact in
      let history :=
        if recorded : bool then change_history (store kg) ++ [fact]
        else change_history (store kg) in
      let kg' :=
        mkKnowledgeGraph (mkStore (dict_set k fact (facts (store kg))) history)
          (subscribers kg) in
      let sent := _notify_subscribers kg' fact in
      mkUpsert kg' true (n_calls sent) (n_printed sent) (n_escaped sent)
  end.

(** [KnowledgeGraph.get_fact]. *)
Definition get_fact (kg : KnowledgeGraph) (etype eid fld : string)
    : option AtomicFact :=
  dict_get (make_key etype eid fld) (facts (store kg)).

(** [KnowledgeGraph.get_entity_facts]. *)
Definition get_entity_facts (kg : KnowledgeGraph) (etype eid : string)
    : list AtomicFact :=
  let prefix := (etype ++ ":" ++ eid ++ ":")%string in
  map snd (filter (fun kf => startswith (fst kf) prefix) (facts (store kg))).

(** [timedelta(hours=h)], in microseconds: the number of days it
    normalises to must have magnitude at most 999999999. *)
Definition timedelta_hours (h : Z) : pyres Z :=
  let us := h * 3600000000 in
  if Z.abs (us / 86400000000) <=? 999999999 then Ret us
  else Raise OverflowError.

(** The first microsecond after [datetime.max] (the end of year 9999). *)
Definition datetime_end : Z := 3652059 * 86400000000.

(** [t - delta] on a datetime: the result must be a datetime. *)
Definition datetime_sub (t : datetime) (delta : Z) : pyres datetime :=
  let r := t - delta in
  if (0 <=? r) && (r <? datetime_end) then Ret r else Raise OverflowError.

(** [KnowledgeGraph.get_recent_changes]. *)
Definition get_recent_changes (now : datetime) (kg : KnowledgeGraph)
    (hours min_importance : Z) : pyres (list AtomicFact) :=
  delta <- timedelta_hours hours ;;
  cutoff <- datetime_sub now delta ;;
  Ret (filter
         (fun f => (cutoff <? updated_at f) &&
                   (min_importance <=? importance_value (importance f)))
         (change_history (store kg))).

(* ================================================================== *)
(** ** Layer 2: change detection and validation *)
(* ================================================================== *)

(** [ChangeValidator._apply_rules]. The comparisons of a number with
    [0] and [100000] cannot raise. *)
Definition _apply_rules (fact : AtomicFact) : bool * float :=
  if py_eq (value fact) (previous_value fact) then (false, 0.0%float)
  else if String.eqb (entity_type fact) "price" && is_number (value fact) then
    match py_lt_int (value fact) 0 with
    | Ret true => (false, 0.0%float)
    | _ =>
        match py_gt_int (value fact) 100000 with
        | Ret true => (true, 0.7%float)
        | _ => (true, 0.9%float)
        end
    end
  else (true, 0.9%float).

(** [ChangeValidator._llm_validate]. *)
Definition _llm_validate (fact : AtomicFact) : bool * float :=
  (true, 0.92%float).

(** [ChangeValidator.validate]. *)
Definition validate (fact : AtomicFact) : bool * float * string :=
  let rule_result := _apply_rules fact in
  let llm_result := _llm_validate fact in
  let combined_confidence :=
    (snd rule_result * 0.4 + snd llm_result * 0.6)%float in
  if 8 <=? importance_value (importance fact) then
    (true, (combined_confidence * 0.95)%float, "Pending pharmacist verification"%string)
  else (true, combined_confidence, "Auto-validated"%string).

(** [ChangeValidator.score_importance]. *)
Definition score_importance (fact : AtomicFact) : pyres ChangeImportance :=
  let name := lower (field fact) in
  if contains "tier" name && py_ne (previous_value fact) (value fact) then
    Ret MAJOR
  else if contains "pa_required" name then Ret HIGH
  else if contains "shortage" name then Ret URGENT
  else if contains "warning" name then Ret CRITICAL
  else if contains "copay" name then
    d <- py_sub (py_or (value fact) (VInt 0))
                (py_or (previous_value fact) (VInt 0)) ;;
    diff <- py_abs d ;;
    big <- py_ge_int diff 20 ;;
    if big : bool then Ret SIGNIFICANT
    else
      mid <- py_ge_int diff 5 ;;
      if mid : bool then Ret MODERATE else Ret LOW
  else Ret MODERATE.

(* ================================================================== *)
(** ** Vocabulary of the statements *)
(* ================================================================== *)

(** A run of submissions, each at its own clock reading. *)
Fixpoint submit_all (subs : list (datetime * AtomicFact))
    (kg : KnowledgeGraph) : KnowledgeGraph :=
  match subs with
  | [] => kg
  | (now, fact) :: rest => submit_all rest (graph_after (upsert_fact now fact kg))
  end.

(** The graphs the class can be in: built by [__init__], changed by
    [subscribe] and [upsert_fact] only. *)
Inductive reachable : KnowledgeGraph -> Prop :=
  | reach_init : reachable empty_graph
  | reach_subscribe cb kg :
      reachable kg -> reachable (subscribe cb kg)
  | reach_upsert now fact kg :
      reachable kg -> reachable (graph_after (upsert_fact now fact kg)).

(** How the calls of the subscribers would end, each taken alone, on
    the graph [st] and with the fact [fact]. *)
Definition outcomes (st : Store) (fact : AtomicFact) (subs : list Callback)
    : list Outcome :=
  map (fun cb => call cb st fact) subs.

(** An outcome that leaves the notification loop. *)
Definition escapes (o : Outcome) : bool :=
  match o with
  | Escaped _ => true
  | _ => false
  end.

(** The outcomes up to the first that escapes, that one included. *)
Fixpoint until_escape (os : list Outcome) : list Outcome :=
  match os with
  | [] => []
  | o :: rest => if escapes o then [o] else o :: until_escape rest
  end.

(** The first exception of a list of outcomes that escapes. *)
Fixpoint first_escape (os : list Outcome) : option string :=
  match os with
  | [] => None
  | Escaped e :: _ => Some e
  | _ :: rest => first_escape rest
  end.

(** The keys of the dict are distinct, every current fact is stored
    under its own key, and every history entry has a current fact. *)
Definition graph_invariant (kg : KnowledgeGraph) : Prop :=
  NoDup (map fst (facts (store kg))) /\
  (forall k f, In (k, f) (facts (store kg)) -> fact_key f = k) /\
  (forall h, In h (change_history (store kg)) ->
     dict_get (fact_key h) (facts (store kg)) <> None).

(** [l1] is [l2] with some elements left out, the order kept. *)
Inductive subseq {A : Type} : list A -> list A -> Prop :=
  | subseq_nil : subseq [] []
  | subseq_skip x l1 l2 : subseq l1 l2 -> subseq l1 (x :: l2)
  | subseq_keep x l1 l2 : subseq l1 l2 -> subseq (x :: l1) (x :: l2).

(** Oldest first, and newest first, by [updated_at]. *)
Definition oldest_first (l : list AtomicFact) : Prop :=
  StronglySorted (fun a b => updated_at a <= updated_at b) l.

Fixpoint newest_firstb (l : list AtomicFact) : bool :=
  match l with
  | [] => true
  | a :: rest =>
      forallb (fun b => updated_at b <=? updated_at a) rest && newest_firstb rest
  end.

(** Ascending by field name. *)
Fixpoint fields_ascendingb (l : list AtomicFact) : bool :=
  match l with
  | a :: ((b :: _) as rest) =>
      match String.compare (field a) (field b) with
      | Gt => false
      | _ => fields_ascendingb rest
      end
  | _ => true
  end.

(** Each submission of the run carries a value that differs ([==]) from
    the one before it, the first from the current value [cur] if any. *)
Fixpoint distinct_from (cur : option PyVal)
    (subs : list (datetime * AtomicFact)) : Prop :=
  match subs with
  | [] => True
  | (_, f) :: rest =>
      match cur with
      | Some v => py_eq v (value f) = false
      | None => True
      end /\ distinct_from (Some (value f)) rest
  end.

(** The field name, lowered, holds the word [w]. *)
Definition names (fact : AtomicFact) (w : string) : bool :=
  contains w (lower (field fact)).

(** A tier field whose value differs from the previous one. *)
Definition tier_change (fact : AtomicFact) : bool :=
  names fact "tier" && py_ne (previous_value fact) (value fact).

(** A copay as a whole number of dollars: [v or 0] when that is an
    [int] or a [bool]. *)
Definition dollars (v : PyVal) : option Z := as_int (py_or v (VInt 0)).

(** The absolute difference of the copay rule,
    [abs((value or 0) - (previous_value or 0))], as Python computes it. *)
Definition copay_delta (fact : AtomicFact) : pyres PyVal :=
  d <- py_sub (py_or (value fact) (VInt 0))
              (py_or (previous_value fact) (VInt 0)) ;;
  py_abs d.

(** The copay rows of the severity table. *)
Definition copay_bucket (delta : Z) : ChangeImportance :=
  if 20 <=? delta then SIGNIFICANT
  else if 5 <=? delta then MODERATE
  else LOW.

(** The copay rows for a difference computed in binary64. *)
Definition copay_bucket_float (delta : float) : ChangeImportance :=
  match float_compare_Z delta 20 with
  | Some Gt | Some Eq => SIGNIFICANT
  | _ =>
      match float_compare_Z delta 5 with
      | Some Gt | Some Eq => MODERATE
      | _ => LOW
      end
  end.

(** A candidate as a producer builds it. The fields no method of the
    graph or the validator reads ([id], [source], [created_at], ...) are
    left at fixed values; [updated_at] is overwritten on admission. *)
Definition candidate (etype eid fld : string) (v : PyVal)
    (imp : ChangeImportance) : AtomicFact :=
  mkAtomicFact "" etype eid fld v VNone "" None 1.0%float None None 0 0 imp.

(* ================================================================== *)
(** ** Sample data, after the producers of [PharmaFirehose] *)
(* ================================================================== *)

Definition hour : Z := 3600000000.

(** Midnight of 1 January 2026. *)
Definition new_year : datetime := 739616 * 86400000000.

(** The formulary tier of Ozempic under one payer's plan. *)
Definition tier (v : Z) : AtomicFact :=
  candidate "coverage" "ozempic:aetna_comm" "formulary_tier" (VInt v) MAJOR.

(** A graph that saw tier 3, then tier 2, then tier 1, an hour apart. *)
Definition tiers_graph : KnowledgeGraph :=
  submit_all
    [(new_year - 3 * hour, tier 3);
     (new_year - 2 * hour, tier 2);
     (new_year - 1 * hour, tier 1)]
    empty_graph.

(** Ozempic itself: whether prior authorisation is required, and its
    tier, followed by the tier under one payer's plan. *)
Definition ozempic_graph : KnowledgeGraph :=
  submit_all
    [(new_year - 3 * hour,
      candidate "coverage" "ozempic" "pa_required" (VBool true) HIGH);
     (new_year - 2 * hour,
      candidate "coverage" "ozempic" "formulary_tier" (VInt 2) MAJOR);
     (new_year - 1 * hour, tier 3)]
    empty_graph.

(** A cash price as a scraper reports it. *)
Definition cash_price (v : PyVal) : AtomicFact :=
  candidate "price" "ozempic" "goodrx_low" v NOTABLE.

(** Two fields whose names hold two words of the severity table. *)
Definition shortage_warning : AtomicFact :=
  candidate "drug" "amoxicillin" "shortage_warning"
    (VStr "Limited Supply") URGENT.

Definition copay_tier : AtomicFact :=
  set_previous_value (VInt 10)
    (candidate "coverage" "metformin:humana_ma" "copay_tier" (VInt 15) NOTABLE).

(** Two subscribers: a socket whose peer has gone, then a dashboard. *)
Definition closed_socket : Callback :=
  CoroutineFunction (fun _ _ => Raised "connection closed").

Definition dashboard : Callback := PlainFunction (fun _ _ => Returned).


Definition watched_graph : KnowledgeGraph :=
  subscribe dashboard (subscribe closed_socket empty_graph).


(* ================================================================== *)
(** ** Serialisation of a fact *)
(* ================================================================== *)

(** The dict [AtomicFact.to_dict] builds, its keys as fields. *)
Record FactDictionary : Type := mkFactDictionary {
  dict_id : string;
  dict_entity_type : string;
  dict_entity_id : string;
  dict_field : string;
  dict_value : PyVal;
  dict_previous_value : PyVal;
  dict_source : string;
  dict_confidence : float;
  dict_verified_by : option string;
  dict_effective_date : option string;
  dict_updated_at : string;
  dict_importance : Z
}.

(** [AtomicFact.to_dict]; [isoformat] is [datetime.isoformat]. *)
Definition to_dict (isoformat : datetime -> string) (f : AtomicFact)
    : FactDictionary :=
  mkFactDictionary (id f) (entity_type f) (entity_id f) (field f) (value f)
    (previous_value f) (source f) (confidence f) (verified_by f)
    (match effective_date f with
     | Some d => Some (isoformat d)
     | None => None
     end)
    (isoformat (updated_at f)) (importance_value (importance f)).

(* ================================================================== *)
(** ** Layer 1: the simulated firehose *)
(* ================================================================== *)

(** [@dataclass class DataSource]. *)
Record DataSource : Type := mkDataSource {
  source_id : string;
  source_name : string;
  source_type : string;
  update_frequency : string;
  enabled : bool;
  last_check : option datetime;
  last_update : option datetime;
  records_processed : Z
}.

(** [DataSource(id, name, source_type, update_frequency)], the other
    fields at their defaults. *)
Definition data_source (sid name type frequency : string) : DataSource :=
  mkDataSource sid name type frequency true None None 0.

(** [PharmaFirehose.SOURCES]. *)
Definition SOURCES : list DataSource :=
  [
    data_source "fda_orange_book" "FDA Orange Book" "api" "daily";
    data_source "fda_ndc" "FDA NDC Directory" "api" "daily";
    data_source "fda_labels" "FDA Drug Labels" "api" "realtime";
    data_source "cms_nadac" "CMS NADAC" "sftp" "weekly";
    data_source "cms_asp" "CMS ASP Drug Pricing" "api" "quarterly";
    data_source "cms_340b" "340B Ceiling Prices" "api" "daily";
    data_source "goodrx" "GoodRx Prices" "scraper" "5min";
    data_source "costplus" "Cost Plus Drugs" "scraper" "5min";
    data_source "amazon_pharmacy" "Amazon Pharmacy" "scraper" "5min";
    data_source "clinicaltrials" "ClinicalTrials.gov" "api" "hourly";
    data_source "pubmed" "PubMed/NCBI" "api" "hourly";
    data_source "ema" "European Medicines Agency" "api" "daily";
    data_source "health_canada" "Health Canada" "api" "daily";
    data_source "aetna_portal" "Aetna Formulary Portal" "portal" "daily";
    data_source "bcbs_portal" "BCBS Formulary Portal" "portal" "daily";
    data_source "uhc_portal" "UnitedHealthcare Portal" "portal" "daily";
    data_source "cigna_portal" "Cigna Formulary Portal" "portal" "daily";
    data_source "humana_portal" "Humana Medicare Portal" "portal" "daily";
    data_source "medicaid_tx" "Texas Medicaid Portal" "portal" "daily";
    data_source "medicaid_ca" "Medi-Cal Portal" "portal" "daily";
    data_source "medicaid_ny" "NY Medicaid Portal" "portal" "daily";
    data_source "medicaid_fl" "Florida Medicaid Portal" "portal" "daily"
  ]%list.

(** A row of [possible_updates]: entity type, entity id, field, value,
    description, importance, source. *)
Definition Update : Type :=
  (string * string * string * PyVal * string * ChangeImportance * string)%type.

(** The tuple of a row. *)
Definition update_row (etype eid fld : string) (v : PyVal)
    (description : string) (imp : ChangeImportance) (src : string) : Update :=
  (etype, eid, fld, v, description, imp, src).

(** [possible_updates] of [PharmaFirehose._simulation_loop]. *)
Definition possible_updates : list Update :=
  [
    update_row "coverage" "ozempic:aetna_comm" "formulary_tier" (VInt 2)
      "Tier 3 â†’ Tier 2" MAJOR "Aetna Provider Portal";
    update_row "coverage" "jardiance:united_comm" "formulary_tier" (VInt 1)
      "Tier 2 â†’ Tier 1" MAJOR "UHC Formulary Update";
    update_row "coverage" "ozempic:cigna_comm" "pa_required" (VBool false)
      "PA Removed!" HIGH "Cigna Policy Update";
    update_row "coverage" "wegovy:bcbs_comm" "pa_required" (VBool true)
      "PA Now Required" HIGH "BCBS Policy Alert";
    update_row "price" "ozempic" "goodrx_low" (VFloat 842.00)
      "Price dropped $50" NOTABLE "GoodRx Scraper";
    update_row "price" "humira" "costplus_price" (VFloat 1250.00)
      "Cost Plus now carries Humira" SIGNIFICANT "CostPlus API";
    update_row "price" "eliquis" "nadac" (VFloat 485.50)
      "NADAC updated" MODERATE "CMS NADAC Feed";
    update_row "drug" "semaglutide" "new_warning" (VStr "Thyroid monitoring recommended")
      "New Safety Alert" CRITICAL "FDA MedWatch";
    update_row "drug" "amoxicillin" "shortage_status" (VStr "Limited Supply")
      "Shortage Alert!" URGENT "FDA Drug Shortages";
    update_row "coverage" "metformin:humana_ma" "copay" (VInt 0)
      "Copay reduced to $0" NOTABLE "Humana Formulary"
  ]%list.

(** [class PharmaFirehose]: the sources by id, and the running flag. The
    graph it feeds is the brain's, and its queue is never used. *)
Record PharmaFirehose : Type := mkPharmaFirehose {
  sources : list (string * DataSource);
  firehose_running : bool
}.

(** [PharmaFirehose.__init__]: [{s.id: s for s in self.SOURCES}]; the
    ids of [SOURCES] are distinct. *)
Definition new_firehose : PharmaFirehose :=
  mkPharmaFirehose (map (fun s => (source_id s, s)) SOURCES) false.

(** [KnowledgeGraph._generate_fact_id]; [md5_hexdigest] is
    [hashlib.md5(s.encode()).hexdigest()]. *)
Definition _generate_fact_id (md5_hexdigest : string -> string)
    (etype eid fld : string) : string :=
  substring 0 12 (md5_hexdigest (make_key etype eid fld)).

(** What one pass of the simulation loop draws from outside: the row
    [random.choice] picks, the number [random.uniform(0, 0.05)] returns,
    and the clock at the three [datetime.now()] of the construction of
    the fact and at the one of [upsert_fact]. *)
Record Draw : Type := mkDraw {
  chosen : Update;
  jitter : float;
  now_effective : datetime;
  now_created : datetime;
  now_updated : datetime;
  now_upsert : datetime
}.

(** The fact a pass of the loop builds. *)
Definition drawn_fact (md5_hexdigest : string -> string) (d : Draw)
    : AtomicFact :=
  let '(entity_type, entity_id, field, value, description, importance, source) :=
    chosen d in
  mkAtomicFact (_generate_fact_id md5_hexdigest entity_type entity_id field)
    entity_type entity_id field value VNone source None
    (0.95 + jitter d)%float (Some "AI Validation Engine"%string)
    (Some (now_effective d)) (now_created d) (now_updated d) importance.

(** [str(n)] for an [int]. *)
Definition str_int (n : Z) : string := NilZero.string_of_int (Z.to_int n).

(** The line a pass prints when the graph changed. *)
Definition firehose_line (d : Draw) : string :=
  let '(entity_type, entity_id, field, value, description, importance, source) :=
    chosen d in
  ("[FIREHOSE] " ++ description ++ " | Source: " ++ source ++
   " | Importance: " ++ str_int (importance_value importance) ++ "/10")%string.

(* ================================================================== *)
(** ** Layer 5: the autonomous agents *)
(* ================================================================== *)

(** The subclasses of [AutonomousAgent]. *)
Inductive AgentClass : Type :=
  | PACriteriaWatcher
  | PriceHunter
  | ShortageMonitor
  | LabelWatcher
  | MedicaidSpider.

(** The seconds each subclass sleeps between checks. *)
Definition check_interval (c : AgentClass) : Z :=
  match c with
  | PACriteriaWatcher => 3600
  | PriceHunter => 300
  | ShortageMonitor => 1800
  | LabelWatcher => 3600
  | MedicaidSpider => 86400
  end.

(** [class AutonomousAgent]; [stats] is the dict with the keys [checks]
    and [updates_found]. The graph it holds is the brain's. The tasks
    that [start] made for [_run_loop] are counted with the agent: those
    that have not begun to run, and those inside their
    [await asyncio.sleep]. *)
Record AutonomousAgent : Type := mkAutonomousAgent {
  agent_class : AgentClass;
  agent_name : string;
  agent_running : bool;
  checks : Z;
  updates_found : Z;
  loops_created : nat;
  loops_sleeping : nat
}.

(** [AutonomousAgent.__init__]. *)
Definition new_agent (c : AgentClass) (name : string) : AutonomousAgent :=
  mkAutonomousAgent c name false 0 0 0 0.

(** [AutonomousAgent.start]: the flag is set and a task is made for
    [_run_loop]; the task runs later. *)
Definition agent_start (a : AutonomousAgent) : AutonomousAgent :=
  mkAutonomousAgent (agent_class a) (agent_name a) true (checks a)
    (updates_found a) (S (loops_created a)) (loops_sleeping a).

(** [AutonomousAgent.stop]: the flag only; the tasks are left alone. *)
Definition agent_stop (a : AutonomousAgent) : AutonomousAgent :=
  mkAutonomousAgent (agent_class a) (agent_name a) false (checks a)
    (updates_found a) (loops_created a) (loops_sleeping a).

(** A task of a subclass's [_run_loop] begins: [while self.running]
    is tested for the first time, and the task goes to sleep or ends.
    Nothing happens when no task is waiting to begin. *)
Definition agent_begin (a : AutonomousAgent) : AutonomousAgent :=
  match loops_created a with
  | O => a
  | S created =>
      mkAutonomousAgent (agent_class a) (agent_name a) (agent_running a)
        (checks a) (updates_found a) created
        (if agent_running a then S (loops_sleeping a) else loops_sleeping a)
  end.

(** The sleep of a task of [_run_loop] ends:
    [self.stats["checks"] += 1], whether the agent still runs or not,
    and then [while self.running] sends the task back to sleep or ends
    it. Nothing happens when no task is asleep. *)
Definition agent_check (a : AutonomousAgent) : AutonomousAgent :=
  match loops_sleeping a with
  | O => a
  | S others =>
      mkAutonomousAgent (agent_class a) (agent_name a) (agent_running a)
        (checks a + 1) (updates_found a) (loops_created a)
        (if agent_running a then S others else others)
  end.

(* ================================================================== *)
(** ** The unified brain *)
(* ================================================================== *)

(** A WebSocket connection, by its identity. *)
Definition WebSocket : Type := nat.

(** [class PharmaBrain]. The graph's subscribers are the [push_to_ws]
    closures that [subscribe_websocket] made, one for each socket of
    [subscribed], in order; [output] is what the brain and its firehose
    have printed. *)
Record PharmaBrain : Type := mkPharmaBrain {
  brain_store : Store;
  subscribed : list WebSocket;
  firehose : PharmaFirehose;
  agents : list AutonomousAgent;
  websocket_clients : list WebSocket;
  running : bool;
  output : list string
}.

(** [push_to_ws] as the graph sees it: a coroutine function that always
    returns, its bare [except:] catching whatever [send_json] raises,
    what is no [Exception] included, and its handler removing the socket
    only when it is there. What it does to [websocket_clients] is
    [push_effect]. *)
Definition push_to_ws (ws : WebSocket) : Callback :=
  CoroutineFunction (fun _ _ => Returned).

(** [self.knowledge_graph]. *)
Definition knowledge_graph (b : PharmaBrain) : KnowledgeGraph :=
  mkKnowledgeGraph (brain_store b) (map push_to_ws (subscribed b)).

(** [PharmaBrain.__init__]. *)
Definition new_brain : PharmaBrain :=
  mkPharmaBrain (mkStore [] []) [] new_firehose
    [new_agent PACriteriaWatcher "PA Criteria Watcher";
     new_agent PriceHunter "Price Hunter";
     new_agent ShortageMonitor "Shortage Stalker";
     new_agent LabelWatcher "Label Ninja";
     new_agent MedicaidSpider "Medicaid Spider"]
    [] false [].

(** [PharmaBrain.start]. *)
Definition start (b : PharmaBrain) : PharmaBrain :=
  mkPharmaBrain (brain_store b) (subscribed b)
    (mkPharmaFirehose (sources (firehose b)) true)
    (map agent_start (agents b))
    (websocket_clients b) true
    (output b ++
     ["[PHARMA BRAIN] ðŸ§  Real-Time Pharmaceutical Intelligence Engine ONLINE"%string;
      ("[PHARMA BRAIN] Monitoring " ++
       str_int (Z.of_nat (List.length (sources (firehose b)))) ++
       " data sources")%string;
      ("[PHARMA BRAIN] " ++ str_int (Z.of_nat (List.length (agents b))) ++
       " autonomous agents deployed")%string]).

(** [PharmaBrain.stop]. *)
Definition stop (b : PharmaBrain) : PharmaBrain :=
  mkPharmaBrain (brain_store b) (subscribed b)
    (mkPharmaFirehose (sources (firehose b)) false)
    (map agent_stop (agents b))
    (websocket_clients b) false
    (output b ++ ["[PHARMA BRAIN] Shutting down..."%string]).

(** [PharmaBrain.subscribe_websocket]. *)
Definition subscribe_websocket (ws : WebSocket) (b : PharmaBrain)
    : PharmaBrain :=
  mkPharmaBrain (brain_store b) (subscribed b ++ [ws]) (firehose b)
    (agents b) (websocket_clients b ++ [ws]) (running b) (output b).

(** [list.remove(x)] when [x in list]: the first occurrence goes. *)
Fixpoint remove_first (ws : WebSocket) (l : list WebSocket)
    : list WebSocket :=
  match l with
  | [] => []
  | x :: rest => if Nat.eqb x ws then rest else x :: remove_first ws rest
  end.

(** What [push_to_ws] for the socket [ws] does to [websocket_clients]:
    nothing when [send_json] goes through, and when it raises the socket
    is removed if it is there. *)
Definition push_effect (accepts : WebSocket -> bool) (ws : WebSocket)
    (clients : list WebSocket) : list WebSocket :=
  if accepts ws then clients else remove_first ws clients.

(** The effects of the callbacks of one notification, in the order of
    the calls. *)
Definition push_effects (accepts : WebSocket -> bool)
    (called : list WebSocket) (clients : list WebSocket) : list WebSocket :=
  fold_left (fun cl ws => push_effect accepts ws cl) called clients.

(** One pass of the body of [PharmaFirehose._simulation_loop], after
    its sleep: nothing when the firehose has been stopped; otherwise the
    drawn fact goes to [upsert_fact], and a line is printed when that
    returns [True]. [accepts] tells which sockets take the message. An
    exception that leaves [upsert_fact] leaves the loop as well, after
    the sockets that were called and the lines that were printed. *)
Definition simulation_pass (md5_hexdigest : string -> string) (d : Draw)
    (accepts : WebSocket -> bool) (b : PharmaBrain) : PharmaBrain :=
  if firehose_running (firehose b) then
    let r := upsert_fact (now_upsert d) (drawn_fact md5_hexdigest d)
               (knowledge_graph b) in
    match result r with
    | Returns changed =>
        mkPharmaBrain (store (graph_after r)) (subscribed b) (firehose b)
          (agents b)
          (if changed
           then push_effects accepts (subscribed b) (websocket_clients b)
           else websocket_clients b)
          (running b)
          (output b ++ printed r ++
           (if changed then [firehose_line d] else []))
    | Raises _ =>
        mkPharmaBrain (store (graph_after r)) (subscribed b) (firehose b)
          (agents b)
          (push_effects accepts
             (firstn (List.length (deliveries r)) (subscribed b))
             (websocket_clients b))
          (running b)
          (output b ++ printed r)
    end
  else b.

(** A step of a task of agent number [i]. *)
Fixpoint agents_step (step : AutonomousAgent -> AutonomousAgent) (i : nat)
    (l : list AutonomousAgent) : list AutonomousAgent :=
  match l, i with
  | [], _ => []
  | a :: rest, O => step a :: rest
  | a :: rest, S j => a :: agents_step step j rest
  end.

(** A task of agent number [i] begins. *)
Definition agent_begins (i : nat) (b : PharmaBrain) : PharmaBrain :=
  mkPharmaBrain (brain_store b) (subscribed b) (firehose b)
    (agents_step agent_begin i (agents b)) (websocket_clients b) (running b)
    (output b).

(** The sleep of a task of agent number [i] ends. *)
Definition agent_pass (i : nat) (b : PharmaBrain) : PharmaBrain :=
  mkPharmaBrain (brain_store b) (subscribed b) (firehose b)
    (agents_step agent_check i (agents b)) (websocket_clients b) (running b)
    (output b).

(** The dict [PharmaBrain.get_system_status] returns. *)
Record SystemStatus : Type := mkSystemStatus {
  status : string;
  total_facts : nat;
  recent_changes_24h : nat;
  sources_active : nat;
  agent_rows : list (string * Z * Z);
  status_websocket_clients : nat
}.

(** [PharmaBrain.get_system_status]. *)
Definition get_system_status (now : datetime) (b : PharmaBrain)
    : pyres SystemStatus :=
  recent <- get_recent_changes now (knowledge_graph b) 24 1 ;;
  Ret (mkSystemStatus
         (if running b then "online" else "offline")
         (List.length (facts (brain_store b)))
         (List.length recent)
         (List.length
            (filter (fun s => enabled (snd s)) (sources (firehose b))))
         (map (fun a => (agent_name a, checks a, updates_found a)) (agents b))
         (List.length (websocket_clients b))).

(** The dict the endpoint [/api/updates/recent] returns. *)
Record RecentUpdates : Type := mkRecentUpdates {
  count : nat;
  hours_asked : Z;
  updates : list FactDictionary
}.

(** [get_recent_updates] of the API, on the brain [get_pharma_brain]
    hands it; the framework admits [hours] up to 168. *)
Definition get_recent_updates (isoformat : datetime -> string)
    (now : datetime) (b : PharmaBrain) (hours : Z) : pyres RecentUpdates :=
  changes <- get_recent_changes now (knowledge_graph b) hours 3 ;;
  Ret (mkRecentUpdates (List.length changes) hours
         (map (to_dict isoformat) (firstn 50 changes))).

(** What happens to a brain: its methods called and its loops turning. *)
Inductive Event : Type :=
  | Start
  | Stop
  | Connect (ws : WebSocket)
  | FirehosePass (d : Draw) (accepts : WebSocket -> bool)
  | AgentBegin (i : nat)
  | AgentPass (i : nat).

Definition happen (md5_hexdigest : string -> string) (b : PharmaBrain)
    (e : Event) : PharmaBrain :=
  match e with
  | Start => start b
  | Stop => stop b
  | Connect ws => subscribe_websocket ws b
  | FirehosePass d accepts => simulation_pass md5_hexdigest d accepts b
  | AgentBegin i => agent_begins i b
  | AgentPass i => agent_pass i b
  end.

(** The brain after a run of events, from its creation. *)
Definition brain_after (md5_hexdigest : string -> string)
    (events : list Event) : PharmaBrain :=
  fold_left (happen md5_hexdigest) events new_brain.

(* ================================================================== *)
(** ** Vocabulary of the further statements *)
(* ================================================================== *)

(** A graph fresh from [__init__] that callbacks have subscribed to. *)
Definition fresh_graph (subs : list Callback) : KnowledgeGraph :=
  mkKnowledgeGraph (mkStore [] []) subs.

(** The keys of a run of submissions. *)
Definition submitted_keys (subs : list (datetime * AtomicFact)) : list string :=
  map (fun s => fact_key (snd s)) subs.

(** The most recent history entry recorded for the key [k]. *)
Definition last_change (k : string) (history : list AtomicFact)
    : option AtomicFact :=
  find (fun h => String.eqb (fact_key h) k) (rev history).

(** The clock readings of a run never go back, starting from [t0]. *)
Fixpoint clock_forward (t0 : datetime) (subs : list (datetime * AtomicFact))
    : Prop :=
  match subs with
  | [] => True
  | (t, _) :: rest => t0 <= t /\ clock_forward t rest
  end.

(** The last clock reading of a run that started at [t0]. *)
Fixpoint last_reading (t0 : datetime) (subs : list (datetime * AtomicFact))
    : datetime :=
  match subs with
  | [] => t0
  | (t, _) :: rest => last_reading t rest
  end.

(** The key and the value of a row of [possible_updates]. *)
Definition row_key (u : Update) : string :=
  let '(etype, eid, fld, _, _, _, _) := u in make_key etype eid fld.

Definition row_value (u : Update) : PyVal :=
  let '(_, _, _, v, _, _, _) := u in v.

Definition row_importance (u : Update) : ChangeImportance :=
  let '(_, _, _, _, _, imp, _) := u in imp.

(** Every pass of the firehose in the run drew a row of the table, as
    [random.choice] does. *)
Definition drawn_from_table (events : list Event) : Prop :=
  forall d accepts,
    In (FirehosePass d accepts) events -> In (chosen d) possible_updates.

(** No two rows of the table give one key two values. *)
Definition table_consistent : bool :=
  forallb
    (fun u =>
       forallb
         (fun u' =>
            implb (String.eqb (row_key u) (row_key u'))
                  (py_eq (row_value u') (row_value u)))
         possible_updates)
    possible_updates.

(** What the firehose keeps true of the brain's store. *)
Definition fed_by_table (st : Store) : Prop :=
  change_history st = [] /\
  NoDup (map fst (facts st)) /\
  forall k f, In (k, f) (facts st) ->
    exists u, In u possible_updates /\ k = row_key u /\
              value f = row_value u /\ importance f = row_importance u /\
              previous_value f = VNone.

(** The sockets a run connected, in order. *)
Fixpoint connected (events : list Event) : list WebSocket :=
  match events with
  | [] => []
  | Connect ws :: rest => ws :: connected rest
  | _ :: rest => connected rest
  end.

(** The line the [except] branch prints for a call, if it raised an
    [Exception]. *)
Definition failure_line (d : Delivery) : list string :=
  match d_outcome d with
  | Returned => []
  | Raised e => [("Subscriber notification failed: " ++ e)%string]
  | Escaped _ => []
  end.

(** The lines printed for a list of calls. *)
Definition failure_lines (ds : list Delivery) : list string :=
  flat_map failure_line ds.

(** A pass that draws the Ozempic tier under Aetna, and one that draws
    the shortage of amoxicillin. *)
Definition draw_tier (t : datetime) : Draw :=
  mkDraw
    (update_row "coverage" "ozempic:aetna_comm" "formulary_tier" (VInt 2)
       "Tier 3 â†’ Tier 2" MAJOR "Aetna Provider Portal")
    0.01%float t t t t.

Definition draw_shortage (t : datetime) : Draw :=
  mkDraw
    (update_row "drug" "amoxicillin" "shortage_status" (VStr "Limited Supply")
       "Shortage Alert!" URGENT "FDA Drug Shortages")
    0.03%float t t t t.

(** Socket 7 has gone; the others take what is sent. *)
Definition all_but_7 (ws : WebSocket) : bool := negb (Nat.eqb ws 7).

(** What no event changes: the sources of the firehose, the names of
    the agents and their count of updates; and the flags go together. *)
Definition brain_fixtures (b : PharmaBrain) : Prop :=
  sources (firehose b) = sources new_firehose /\
  map agent_name (agents b) = map agent_name (agents new_brain) /\
  (forall a, In a (agents b) -> updates_found a = 0 /\ 0 <= checks a).

(** The lines a run of events makes [start] and [stop] print. *)
Fixpoint switch_lines (events : list Event) : nat :=
  match events with
  | [] => 0
  | Start :: rest => 3 + switch_lines rest
  | Stop :: rest => 1 + switch_lines rest
  | _ :: rest => switch_lines rest
  end.

(** What an event does to agent number [i]. *)
Definition agent_happen (i : nat) (a : AutonomousAgent) (e : Event)
    : AutonomousAgent :=
  match e with
  | Start => agent_start a
  | Stop => agent_stop a
  | AgentBegin j => if Nat.eqb j i then agent_begin a else a
  | AgentPass j => if Nat.eqb j i then agent_check a else a
  | _ => a
  end.

(** A run of events in which the brain is not started. *)
Definition no_start (events : list Event) : bool :=
  forallb (fun e => match e with Start => false | _ => true end) events.

(** The starts of a run, and the sleeps of agent number [i] that
    ended in it. *)
Definition count_starts (events : list Event) : nat :=
  List.length
    (filter (fun e => match e with Start => true | _ => false end) events).

Definition count_passes (i : nat) (events : list Event) : nat :=
  List.length
    (filter (fun e => match e with AgentPass j => Nat.eqb j i | _ => false end)
       events).

(** Whether the brain runs after a run of events: the last of its
    [Start] and [Stop]. *)
Definition running_after (events : list Event) : bool :=
  fold_left
    (fun r e => match e with Start => true | Stop => false | _ => r end)
    events false.

(** A brain whose graph saw the three tiers. *)
Definition tiers_brain : PharmaBrain :=
  mkPharmaBrain (store tiers_graph) [] new_firehose [] [] true [].

(** A morning of the server: two sockets connect, the firehose draws the
    tier twice and the shortage once, the loop of an agent begins and
    checks, socket 7 having gone before the first push. *)
Definition a_morning : list Event :=
  [Start; Connect 7%nat; Connect 8%nat;
   FirehosePass (draw_tier (new_year + hour)) all_but_7;
   FirehosePass (draw_tier (new_year + 2 * hour)) all_but_7;
   AgentBegin 1; AgentPass 1;
   FirehosePass (draw_shortage (new_year + 3 * hour)) all_but_7].

(* ================================================================== *)
(** ** The embedding at work *)
(* ================================================================== *)

(** [==] compares numbers by value across types, and nan with nothing. *)
Example py_eq_numbers :
  py_eq (VInt 1) (VBool true) = true /\
  py_eq (VInt 1) (VFloat 1.0) = true /\
  py_eq (VFloat 842.0) (VInt 842) = true /\
  py_eq (VFloat nan) (VFloat nan) = false /\
  py_eq (VInt 0) VNone = false /\
  py_eq (VStr "2") (VInt 2) = false.
Proof. repeat split; vm_compute; reflexivity. Qed.

(** A float is compared with an integer exactly, and converted with
    rounding. *)
Example float_and_int :
  float_compare_Z 9007199254740992 (2 ^ 53 + 1) = Some Lt /\
  float_of_Z (2 ^ 53 + 1) = Ret 9007199254740992%float /\
  float_compare_Z (-0.5) 0 = Some Lt /\
  float_compare_Z infinity (10 ^ 400) = Some Gt /\
  float_of_Z (10 ^ 400) = Raise OverflowError.
Proof. repeat split; vm_compute; reflexivity. Qed.

Example fact_key_tier :
  fact_key (tier 3) = "coverage:ozempic:aetna_comm:formulary_tier"%string /\
  names (tier 3) "tier" = true /\
  contains "tier" (lower "Formulary_TIER") = true /\
  names (tier 3) "copay" = false.
Proof. repeat split. Qed.

(** The current facts and the history after three tiers. *)
Example tiers_graph_store :
  map fst (facts (store tiers_graph)) =
    ["coverage:ozempic:aetna_comm:formulary_tier"%string] /\
  get_fact tiers_graph "coverage" "ozempic:aetna_comm" "formulary_tier" =
    Some (set_updated_at (new_year - 1 * hour)
            (set_previous_value (VInt 2) (tier 1))) /\
  map (fun f => (previous_value f, value f)) (change_history (store tiers_graph))
    = [(VInt 3, VInt 2); (VInt 2, VInt 1)].
Proof. repeat split; vm_compute; reflexivity. Qed.

(** A nan equals nothing, so a nan submitted twice is stored twice. *)
Example nan_resubmitted :
  let r1 := upsert_fact new_year (cash_price (VFloat nan)) watched_graph in
  let r2 := upsert_fact (new_year + hour) (cash_price (VFloat nan))
              (graph_after r1) in
  returned r1 = true /\ returned r2 = true /\
  List.length (change_history (store (graph_after r2))) = 1%nat.
Proof. repeat split; vm_compute; reflexivity. Qed.

(* ================================================================== *)
(** ** The dictionary of current facts *)
(* ================================================================== *)

Section Dict.

Lemma dict_get_set_same (k : string) (v : AtomicFact) (d : FactDict) :
  dict_get k (dict_set k v d) = Some v.
Proof.
  induction d as [|[k' v'] d IH]; simpl.
  - now rewrite String.eqb_refl.
  - destruct (String.eqb k' k) eqn:E; simpl; rewrite E; auto.
Qed.

Lemma dict_get_set_other (k k' : string) (v : AtomicFact) (d : FactDict) :
  k' <> k -> dict_get k' (dict_set k v d) = dict_get k' d.
Proof.
  intros Hne. induction d as [|[k0 v0] d IH]; simpl.
  - apply String.eqb_neq in Hne. rewrite String.eqb_sym. now rewrite Hne.
  - destruct (String.eqb k0 k) eqn:E; simpl.
    + apply String.eqb_eq in E. subst k0.
      destruct (String.eqb k k') eqn:E'; auto.
      apply String.eqb_eq in E'. congruence.
    + destruct (String.eqb k0 k'); auto.
Qed.

(** A key the dict does not hold goes to the end. *)
Lemma dict_set_new (k : string) (v : AtomicFact) (d : FactDict) :
  dict_get k d = None -> dict_set k v d = d ++ [(k, v)].
Proof.
  induction d as [|[k' v'] d IH]; simpl; intros H; auto.
  destruct (String.eqb k' k); [discriminate|]. now rewrite IH.
Qed.

(** A key the dict holds keeps its place. *)
Lemma dict_set_keys (k : string) (v : AtomicFact) (d : FactDict) :
  dict_get k d <> None -> map fst (dict_set k v d) = map fst d.
Proof.
  induction d as [|[k' v'] d IH]; simpl; intros H; [congruence|].
  destruct (String.eqb k' k) eqn:E; simpl; auto.
  now rewrite IH.
Qed.

Lemma dict_get_none_keys (k : string) (d : FactDict) :
  dict_get k d = None -> ~ In k (map fst d).
Proof.
  induction d as [|[k' v'] d IH]; simpl; intros H; auto.
  destruct (String.eqb k' k) eqn:E; [discriminate|].
  apply String.eqb_neq in E. intros [Heq | Hin]; [congruence | now apply IH].
Qed.

Lemma dict_get_in (k : string) (v : AtomicFact) (d : FactDict) :
  dict_get k d = Some v -> In (k, v) d.
Proof.
  induction d as [|[k' v'] d IH]; simpl; intros H; [discriminate|].
  destruct (String.eqb k' k) eqn:E.
  - apply String.eqb_eq in E. left. congruence.
  - right. auto.
Qed.

Lemma dict_in_get (k : string) (v : AtomicFact) (d : FactDict) :
  NoDup (map fst d) -> In (k, v) d -> dict_get k d = Some v.
Proof.
  induction d as [|[k' v'] d IH]; simpl; intros Hnd Hin; [contradiction|].
  inversion Hnd as [|? ? Hnot Hnd']; subst.
  destruct Hin as [Heq | Hin].
  - inversion Heq; subst. now rewrite String.eqb_refl.
  - destruct (String.eqb k' k) eqn:E; auto.
    apply String.eqb_eq in E. subst k'.
    exfalso. apply Hnot. change k with (fst (k, v)). now apply in_map.
Qed.

(** Assignment keeps the keys of a dict distinct. *)
Lemma dict_set_nodup (k : string) (v : AtomicFact) (d : FactDict) :
  NoDup (map fst d) -> NoDup (map fst (dict_set k v d)).
Proof.
  intros Hnd. destruct (dict_get k d) eqn:G.
  - rewrite dict_set_keys; [assumption | congruence].
  - rewrite dict_set_new by assumption. rewrite map_app. simpl.
    apply NoDup_app; [assumption | repeat constructor; simpl; tauto |].
    intros x Hx [Hk | []]. subst x.
    apply (dict_get_none_keys _ _ G), Hx.
Qed.

End Dict.

(* ================================================================== *)
(** ** [upsert_fact], case by case *)
(* ================================================================== *)

Section UpsertEquations.

Variables (now : datetime) (fact : AtomicFact) (kg : KnowledgeGraph).

(** The graph an admitted candidate leaves behind. *)
Let graph_with (stored : AtomicFact) (history : list AtomicFact) :=
  mkKnowledgeGraph
    (mkStore (dict_set (fact_key fact) stored (facts (store kg))) history)
    (subscribers kg).

Lemma upsert_fact_first :
  dict_get (fact_key fact) (facts (store kg)) = None ->
  let stored := set_updated_at now fact in
  let kg' := graph_with stored (change_history (store kg)) in
  upsert_fact now fact kg =
  mkUpsert kg' true (n_calls (_notify_subscribers kg' stored))
    (n_printed (_notify_subscribers kg' stored))
    (n_escaped (_notify_subscribers kg' stored)).
Proof. intros H. unfold upsert_fact. now rewrite H. Qed.

Lemma upsert_fact_same (existing : AtomicFact) :
  dict_get (fact_key fact) (facts (store kg)) = Some existing ->
  py_eq (value existing) (value fact) = true ->
  upsert_fact now fact kg = mkUpsert kg false [] [] None.
Proof. intros H E. unfold upsert_fact. now rewrite H, E. Qed.

Lemma upsert_fact_differs (existing : AtomicFact) :
  dict_get (fact_key fact) (facts (store kg)) = Some existing ->
  py_eq (value existing) (value fact) = false ->
  let stored := set_updated_at now (set_previous_value (value existing) fact) in
  let kg' := graph_with stored (change_history (store kg) ++ [stored]) in
  upsert_fact now fact kg =
  mkUpsert kg' true (n_calls (_notify_subscribers kg' stored))
    (n_printed (_notify_subscribers kg' stored))
    (n_escaped (_notify_subscribers kg' stored)).
Proof. intros H E. unfold upsert_fact. now rewrite H, E. Qed.

End UpsertEquations.

(** The three ways through [upsert_fact]: the key holds an equal value,
    it holds another value, it is new. *)
Ltac upsert_cases now fact kg :=
  let existing := fresh "existing" in
  let G := fresh "G" in
  let E := fresh "E" in
  destruct (dict_get (fact_key fact) (facts (store kg))) as [existing|] eqn:G;
  [ destruct (py_eq (value existing) (value fact)) eqn:E;
    [ rewrite (upsert_fact_same now fact kg existing G E)
    | rewrite (upsert_fact_differs now fact kg existing G E) ]
  | rewrite (upsert_fact_first now fact kg G) ];
  cbn [graph_after returned deliveries printed escaped store facts
       change_history subscribers].


(* ================================================================== *)
(** ** The notification loop *)
(* ================================================================== *)

Section Outcomes.

Lemma until_escape_all (os : list Outcome) :
  first_escape os = None -> until_escape os = os.
Proof.
  induction os as [|o os IH]; [reflexivity|].
  destruct o; cbn [first_escape until_escape escapes]; intros H;
    [now rewrite IH | now rewrite IH | discriminate].
Qed.

Lemma until_escape_length (os : list Outcome) :
  (List.length (until_escape os) <= List.length os)%nat.
Proof.
  induction os as [|o os IH]; [simpl; lia|].
  destruct o; cbn [until_escape escapes List.length]; lia.
Qed.

(** A subscriber no subscriber before which escapes is reached. *)
Lemma until_escape_nth (os : list Outcome) :
  forall j o,
    nth_error os j = Some o ->
    first_escape (firstn j os) = None ->
    nth_error (until_escape os) j = Some o.
Proof.
  induction os as [|o' os IH]; intros j o H F.
  - destruct j; discriminate.
  - destruct j as [|j].
    + cbn in H. inversion H; subst. cbn [until_escape].
      now destruct (escapes o).
    + cbn [firstn first_escape] in F. cbn [nth_error] in H.
      destruct o'; cbn [until_escape escapes nth_error];
        [now apply IH | now apply IH | discriminate].
Qed.

(** Nothing is reached after a subscriber that escapes. *)
Lemma until_escape_stops (os : list Outcome) :
  forall j e,
    nth_error os j = Some (Escaped e) ->
    (List.length (until_escape os) <= S j)%nat.
Proof.
  induction os as [|o os IH]; intros j e H.
  - destruct j; discriminate.
  - destruct j as [|j].
    + cbn in H. inversion H; subst. simpl. lia.
    + cbn [nth_error] in H. apply IH in H.
      destruct o; cbn [until_escape escapes List.length]; lia.
Qed.

(** The first that escapes is the last that is reached. *)
Lemma first_escape_last (os : list Outcome) (e : string) :
  first_escape os = Some e ->
  exists j,
    nth_error os j = Some (Escaped e) /\
    first_escape (firstn j os) = None /\
    List.length (until_escape os) = S j.
Proof.
  induction os as [|o os IH]; [discriminate|].
  destruct o; cbn [first_escape]; intros H.
  - destruct (IH H) as (j & Hn & Hf & Hl). exists (S j).
    cbn [nth_error firstn first_escape until_escape escapes List.length].
    auto.
  - destruct (IH H) as (j & Hn & Hf & Hl). exists (S j).
    cbn [nth_error firstn first_escape until_escape escapes List.length].
    auto.
  - inversion H; subst. exists 0%nat. repeat split.
Qed.


End Outcomes.

Section Notify.

Variables (st : Store) (fact : AtomicFact).

(** How the calls made ended: as the subscribers' callbacks end, up to
    the first that escapes. *)
Lemma notify_from_outcomes (subs : list Callback) :
  forall i,
    map d_outcome (n_calls (notify_from i st fact subs)) =
    until_escape (outcomes st fact subs).
Proof.
  induction subs as [|c subs IH]; intros i; [reflexivity|].
  cbn [notify_from outcomes map until_escape].
  fold (outcomes st fact subs).
  destruct (call c st fact); cbn [n_calls map d_outcome escapes];
    [now rewrite IH | now rewrite IH | reflexivity].
Qed.

(** The exception that leaves the loop is the first that escapes. *)
Lemma notify_from_escaped (subs : list Callback) :
  forall i,
    n_escaped (notify_from i st fact subs) =
    first_escape (outcomes st fact subs).
Proof.
  induction subs as [|c subs IH]; intros i; [reflexivity|].
  cbn [notify_from outcomes map first_escape].
  fold (outcomes st fact subs).
  destruct (call c st fact); cbn [n_escaped]; auto.
Qed.

(** Every call made is the call of the subscriber of its place. *)
Lemma notify_from_called (subs : list Callback) :
  forall i j d,
    nth_error (n_calls (notify_from i st fact subs)) j = Some d ->
    exists cb,
      nth_error subs j = Some cb /\
      d = mkDelivery (i + j) fact st (call cb st fact).
Proof.
  induction subs as [|c subs IH]; intros i j d H.
  - destruct j; discriminate.
  - cbn [notify_from] in H.
    destruct (call c st fact) eqn:O; cbn [n_calls] in H;
      (destruct j as [|j]; cbn [nth_error] in H;
       [ inversion H; subst; exists c; rewrite O, Nat.add_0_r; now split
       | ]).
    + apply IH in H. destruct H as (cb & Hcb & ->).
      exists cb. split; [exact Hcb|]. f_equal. lia.
    + apply IH in H. destruct H as (cb & Hcb & ->).
      exists cb. split; [exact Hcb|]. f_equal. lia.
    + destruct j; discriminate.
Qed.

(** The loop calls every subscriber before which nothing escaped, in
    order, whatever the calls before it did otherwise. *)
Lemma notify_from_nth (subs : list Callback) :
  forall i j cb,
    nth_error subs j = Some cb ->
    first_escape (firstn j (outcomes st fact subs)) = None ->
    nth_error (n_calls (notify_from i st fact subs)) j =
    Some (mkDelivery (i + j) fact st (call cb st fact)).
Proof.
  induction subs as [|c subs IH]; intros i j cb H F.
  - destruct j; discriminate.
  - cbn [notify_from]. destruct j as [|j].
    + cbn in H. inversion H; subst. rewrite Nat.add_0_r.
      now destruct (call cb st fact).
    + cbn [nth_error] in H.
      cbn [outcomes map firstn first_escape] in F.
      fold (outcomes st fact subs) in F.
      destruct (call c st fact); cbn [n_calls nth_error];
        [ rewrite (IH (S i) j cb H F); do 2 f_equal; lia
        | rewrite (IH (S i) j cb H F); do 2 f_equal; lia
        | discriminate ].
Qed.

Lemma notify_from_length (subs : list Callback) :
  forall i,
    (List.length (n_calls (notify_from i st fact subs)) <= List.length subs)%nat.
Proof.
  intros i. rewrite <- (length_map d_outcome), notify_from_outcomes.
  unfold outcomes. rewrite <- (length_map (fun cb => call cb st fact) subs).
  apply until_escape_length.
Qed.

(** When nothing escapes, every subscriber is called. *)
Lemma notify_from_all (subs : list Callback) :
  forall i,
    first_escape (outcomes st fact subs) = None ->
    List.length (n_calls (notify_from i st fact subs)) = List.length subs.
Proof.
  intros i H. rewrite <- (length_map d_outcome), notify_from_outcomes.
  rewrite (until_escape_all _ H). unfold outcomes. apply length_map.
Qed.




End Notify.

(* ================================================================== *)
(** ** What an admission is and what it publishes *)
(* ================================================================== *)

(** An [upsert_fact] that takes [return True] stored a fact under the
    candidate's key, left the subscribers as they were, and ran the
    notification loop on the graph it returned, with that fact. *)
Lemma upsert_fact_admitted (now : datetime) (fact : AtomicFact)
    (kg : KnowledgeGraph) :
  let r := upsert_fact now fact kg in
  returned r = true ->
  exists stored,
    dict_get (fact_key fact) (facts (store (graph_after r))) = Some stored /\
    value stored = value fact /\
    fact_key stored = fact_key fact /\
    subscribers (graph_after r) = subscribers kg /\
    deliveries r = n_calls (_notify_subscribers (graph_after r) stored) /\
    printed r = n_printed (_notify_subscribers (graph_after r) stored) /\
    escaped r = n_escaped (_notify_subscribers (graph_after r) stored).
Proof.
  upsert_cases now fact kg; [discriminate | |];
    intros _; eexists; (split; [apply dict_get_set_same | repeat split]).
Qed.

(** An [upsert_fact] that takes [return False] did nothing. *)
Lemma upsert_fact_rejected (now : datetime) (fact : AtomicFact)
    (kg : KnowledgeGraph) :
  let r := upsert_fact now fact kg in
  returned r = false -> r = mkUpsert kg false [] [] None.
Proof.
  upsert_cases now fact kg; [reflexivity | discriminate | discriminate].
Qed.

(** The calls of an admission, by the subscribers of the graph. *)
Lemma upsert_fact_calls (now : datetime) (fact : AtomicFact)
    (kg : KnowledgeGraph) :
  let r := upsert_fact now fact kg in
  returned r = true ->
  exists stored,
    let st := store (graph_after r) in
    let os := outcomes st stored (subscribers kg) in
    dict_get (fact_key fact) (facts st) = Some stored /\
    value stored = value fact /\
    deliveries r = n_calls (notify_from 0 st stored (subscribers kg)) /\
    printed r = n_printed (notify_from 0 st stored (subscribers kg)) /\
    escaped r = first_escape os /\
    map d_outcome (deliveries r) = until_escape os.
Proof.
  intros r Hr.
  destruct (upsert_fact_admitted now fact kg Hr)
    as (stored & Hget & Hval & _ & Hsubs & Hds & Hout & Hesc).
  fold r in Hget, Hsubs, Hds, Hout, Hesc.
  unfold _notify_subscribers in Hds, Hout, Hesc.
  rewrite Hsubs in Hds, Hout, Hesc.
  exists stored. cbv zeta. repeat split; auto.
  - now rewrite Hesc, notify_from_escaped.
  - now rewrite Hds, notify_from_outcomes.
Qed.







(* ================================================================== *)
(** ** Invariants of the graphs the class can be in *)
(* ================================================================== *)

Lemma dict_set_in (k : string) (v : AtomicFact) (d : FactDict) :
  forall k0 f0, In (k0, f0) (dict_set k v d) ->
    (k0 = k /\ f0 = v) \/ In (k0, f0) d.
Proof.
  induction d as [|[k' v'] d IH]; simpl; intros k0 f0 H.
  - destruct H as [H | []]. inversion H; auto.
  - destruct (String.eqb k' k) eqn:E; simpl in H.
    + apply String.eqb_eq in E. subst k'.
      destruct H as [H | H]; [inversion H; auto | auto].
    + destruct H as [H | H]; [auto |].
      destruct (IH _ _ H); auto.
Qed.

Lemma dict_get_set_some (k k0 : string) (v : AtomicFact) (d : FactDict) :
  dict_get k0 d <> None -> dict_get k0 (dict_set k v d) <> None.
Proof.
  intros H. destruct (String.eqb_spec k0 k) as [-> | Hne].
  - rewrite dict_get_set_same. discriminate.
  - now rewrite dict_get_set_other.
Qed.

Lemma fact_key_stamped (t : datetime) (p : PyVal) (f : AtomicFact) :
  fact_key (set_updated_at t f) = fact_key f /\
  fact_key (set_previous_value p f) = fact_key f.
Proof. split; reflexivity. Qed.

Lemma upsert_fact_invariant (now : datetime) (fact : AtomicFact)
    (kg : KnowledgeGraph) :
  graph_invariant kg -> graph_invariant (graph_after (upsert_fact now fact kg)).
Proof.
  intros (Hnd & Hkeys & Hhist).
  assert (Hstep : forall stored extra,
    fact_key stored = fact_key fact ->
    (forall h, In h extra -> fact_key h = fact_key fact) ->
    graph_invariant
      (mkKnowledgeGraph
         (mkStore (dict_set (fact_key fact) stored (facts (store kg)))
            (change_history (store kg) ++ extra))
         (subscribers kg))).
  { intros stored extra Hs Hex. unfold graph_invariant. simpl. repeat split.
    - now apply dict_set_nodup.
    - intros k f Hin. apply dict_set_in in Hin.
      destruct Hin as [[-> ->] | Hin]; auto.
    - intros h Hin. apply in_app_or in Hin. destruct Hin as [Hin | Hin].
      + apply dict_get_set_some. auto.
      + rewrite (Hex h Hin), dict_get_set_same. discriminate. }
  upsert_cases now fact kg.
  - repeat split; auto.
  - apply Hstep; [reflexivity|].
    intros h [<- | []]. reflexivity.
  - specialize (Hstep (set_updated_at now fact) [] eq_refl).
    rewrite app_nil_r in Hstep. apply Hstep. intros h [].
Qed.

Lemma reachable_invariant (kg : KnowledgeGraph) :
  reachable kg -> graph_invariant kg.
Proof.
  induction 1 as [|cb kg _ IH|now fact kg _ IH].
  - unfold graph_invariant. simpl. repeat split; try constructor; tauto.
  - exact IH.
  - now apply upsert_fact_invariant.
Qed.

(* ================================================================== *)
(** ** The change feed *)
(* ================================================================== *)

Section Subsequences.

Context {A : Type}.

Lemma filter_subseq (p : A -> bool) (l : list A) : subseq (filter p l) l.
Proof.
  induction l as [|x l IH]; simpl; [constructor|].
  destruct (p x); now constructor.
Qed.

Lemma subseq_In (l1 l2 : list A) :
  subseq l1 l2 -> forall x, In x l1 -> In x l2.
Proof.
  induction 1 as [|y l1 l2 _ IH|y l1 l2 _ IH]; simpl; intros x Hx; auto.
  destruct Hx; auto.
Qed.

Lemma subseq_sorted (R : A -> A -> Prop) (l1 l2 : list A) :
  subseq l1 l2 -> StronglySorted R l2 -> StronglySorted R l1.
Proof.
  induction 1 as [|y l1 l2 Hs IH|y l1 l2 Hs IH]; intros Hsorted; auto.
  - inversion Hsorted; auto.
  - inversion Hsorted as [|? ? Hrest Hall]; subst.
    constructor; [auto|].
    rewrite Forall_forall in *. intros x Hx.
    apply Hall. eapply subseq_In; eauto.
Qed.

End Subsequences.

Lemma oldest_first_snoc (l : list AtomicFact) (x : AtomicFact) :
  oldest_first l ->
  (forall h, In h l -> updated_at h <= updated_at x) ->
  oldest_first (l ++ [x]).
Proof.
  unfold oldest_first. induction l as [|a l IH]; simpl; intros Hs Hle.
  - repeat constructor.
  - inversion Hs as [|a' l' Hrest Hall]. constructor.
    + apply IH; auto.
    + apply Forall_app. split; [assumption|].
      constructor; [auto | constructor].
Qed.

(** With a clock that has not gone back, the history is oldest first. *)
Lemma upsert_fact_oldest_first (now : datetime) (fact : AtomicFact)
    (kg : KnowledgeGraph) :
  oldest_first (change_history (store kg)) ->
  (forall h, In h (change_history (store kg)) -> updated_at h <= now) ->
  oldest_first (change_history (store (graph_after (upsert_fact now fact kg)))).
Proof.
  intros Hs Hle.
  upsert_cases now fact kg; [assumption | | assumption].
  now apply oldest_first_snoc.
Qed.

(** C3, as the code has it. For a window whose [timedelta] and cutoff
    datetime exist, [get_recent_changes] returns the history entries
    whose [updated_at] is strictly after [now - hours] and whose
    importance is at least [min_importance], nothing else, in the order
    of the history: oldest first when the history is. No upper bound is
    put on [updated_at]. *)
Theorem get_recent_changes_window (now : datetime) (kg : KnowledgeGraph)
    (hours min_importance : Z) :
  Z.abs (hours / 24) <= 999999999 ->
  0 <= now - hours * hour < datetime_end ->
  exists l,
    get_recent_changes now kg hours min_importance = Ret l /\
    (forall f, In f l <->
       In f (change_history (store kg)) /\
       now - hours * hour < updated_at f /\
       min_importance <= importance_value (importance f)) /\
    subseq l (change_history (store kg)) /\
    (oldest_first (change_history (store kg)) -> oldest_first l).
Proof.
  unfold hour. intros Hdays Hcut.
  unfold get_recent_changes, timedelta_hours.
  replace (hours * 3600000000 / 86400000000) with (hours / 24)
    by (change 86400000000 with (24 * 3600000000);
        now rewrite Z.div_mul_cancel_r).
  apply Z.leb_le in Hdays. rewrite Hdays. simpl. unfold datetime_sub.
  replace ((0 <=? now - hours * 3600000000) &&
           (now - hours * 3600000000 <? datetime_end)) with true
    by (symmetry; apply andb_true_iff; split;
        [apply Z.leb_le | apply Z.ltb_lt]; lia).
  simpl. eexists. split; [reflexivity|]. split; [|split].
  - intros f. rewrite filter_In, andb_true_iff, Z.ltb_lt, Z.leb_le. tauto.
  - apply filter_subseq.
  - intros Hs. eapply subseq_sorted; [apply filter_subseq | exact Hs].
Qed.

Lemma get_recent_changes_window_example :
  exists l,
    get_recent_changes new_year tiers_graph 24 5 = Ret l /\
    (forall f, In f l <->
       In f (change_history (store tiers_graph)) /\
       new_year - 24 * hour < updated_at f /\
       5 <= importance_value (importance f)) /\
    subseq l (change_history (store tiers_graph)) /\
    (oldest_first (change_history (store tiers_graph)) -> oldest_first l).
Proof.
  apply (get_recent_changes_window new_year tiers_graph 24 5);
    vm_compute; intuition discriminate.
Defined.

(** Outside those windows the call raises. *)
Lemma get_recent_changes_overflow (now : datetime) (kg : KnowledgeGraph)
    (hours min_importance : Z) :
  ~ (Z.abs (hours / 24) <= 999999999 /\
     0 <= now - hours * hour < datetime_end) ->
  get_recent_changes now kg hours min_importance = Raise OverflowError.
Proof.
  unfold hour. intros H. unfold get_recent_changes, timedelta_hours.
  replace (hours * 3600000000 / 86400000000) with (hours / 24)
    by (change 86400000000 with (24 * 3600000000);
        now rewrite Z.div_mul_cancel_r).
  destruct (Z.leb_spec (Z.abs (hours / 24)) 999999999); [|reflexivity].
  cbn [bind]. unfold datetime_sub.
  destruct (Z.leb_spec 0 (now - hours * 3600000000));
    destruct (Z.ltb_spec (now - hours * 3600000000) datetime_end);
    try reflexivity.
  exfalso. apply H. lia.
Qed.

(** C3, as stated, fails: after tier 3, tier 2 and tier 1 were submitted
    an hour apart, the feed of the last 24 hours lists the change to
    tier 2 before the later change to tier 1. *)
Lemma get_recent_changes_not_newest_first :
  get_recent_changes new_year tiers_graph 24 5 =
    Ret [set_updated_at (new_year - 2 * hour) (set_previous_value (VInt 3) (tier 2));
         set_updated_at (new_year - 1 * hour) (set_previous_value (VInt 2) (tier 1))] /\
  newest_firstb
    [set_updated_at (new_year - 2 * hour) (set_previous_value (VInt 3) (tier 2));
     set_updated_at (new_year - 1 * hour) (set_previous_value (VInt 2) (tier 1))]
  = false.
Proof. split; vm_compute; reflexivity. Qed.



(** The one way into the history: a submission that changed a value. *)
Lemma upsert_fact_history (now : datetime) (fact : AtomicFact)
    (kg : KnowledgeGraph) :
  let after := change_history (store (graph_after (upsert_fact now fact kg))) in
  after = change_history (store kg) \/
  exists p, after = change_history (store kg) ++
                      [set_updated_at now (set_previous_value p fact)].
Proof.
  upsert_cases now fact kg; [now left | right | now left].
  now exists (value existing).
Qed.

Lemma submit_all_history (later : list (datetime * AtomicFact)) :
  forall kg g,
    In g (change_history (store (submit_all later kg))) ->
    In g (change_history (store kg)) \/
    exists t c p, In (t, c) later /\
                  g = set_updated_at t (set_previous_value p c).
Proof.
  induction later as [|[t c] later IH]; simpl; intros kg g Hg; [now left|].
  apply IH in Hg. destruct Hg as [Hg | (t' & c' & p & Hin & ->)].
  - destruct (upsert_fact_history t c kg) as [H | [p H]];
      rewrite H in Hg; [now left|].
    apply in_app_or in Hg. destruct Hg as [Hg | [<- | []]]; [now left|].
    right. exists t, c, p. auto.
  - right. exists t', c', p. auto.
Qed.



(* ================================================================== *)
(** ** Keys and prefixes *)
(* ================================================================== *)

Section Strings.

Local Open Scope string_scope.

Lemma append_assoc (a b c : string) : (a ++ b) ++ c = a ++ (b ++ c).
Proof. induction a as [|x a IH]; simpl; [reflexivity | now rewrite IH]. Qed.

Lemma length_append (a b : string) :
  String.length (a ++ b) = (String.length a + String.length b)%nat.
Proof. induction a as [|x a IH]; simpl; [reflexivity | now rewrite IH]. Qed.

Lemma prefix_empty (s : string) : String.prefix "" s = true.
Proof. now destruct s. Qed.

Lemma prefix_cons (c : ascii) (x y : string) :
  String.prefix (String c x) (String c y) = String.prefix x y.
Proof. simpl. destruct (ascii_dec c c); [reflexivity | congruence]. Qed.

Lemma prefix_append_same (a x y : string) :
  String.prefix (a ++ x) (a ++ y) = String.prefix x y.
Proof.
  induction a as [|c a IH]; [reflexivity|].
  change (String.prefix (String c (a ++ x)) (String c (a ++ y)) =
          String.prefix x y).
  now rewrite prefix_cons.
Qed.

(** The key of an entity's field starts with the entity's prefix. *)
Lemma key_startswith (etype eid fld : string) :
  startswith (make_key etype eid fld) (etype ++ ":" ++ eid ++ ":") = true.
Proof.
  unfold startswith, make_key. rewrite prefix_append_same. simpl.
  destruct (ascii_dec ":" ":"); [|congruence].
  rewrite prefix_append_same. simpl.
  destruct (ascii_dec ":" ":"); [apply prefix_empty | congruence].
Qed.

(** And so does the key of any entity whose id goes on after a colon. *)
Lemma longer_key_startswith (etype eid rest fld : string) :
  startswith (make_key etype (eid ++ ":" ++ rest) fld)
    (etype ++ ":" ++ eid ++ ":") = true.
Proof.
  unfold startswith, make_key. rewrite prefix_append_same. simpl.
  destruct (ascii_dec ":" ":"); [|congruence].
  rewrite append_assoc, prefix_append_same. simpl.
  destruct (ascii_dec ":" ":"); [apply prefix_empty | congruence].
Qed.

(** A string starts with a prefix when it is the prefix and more. *)
Lemma startswith_append (s p : string) :
  startswith s p = true <-> exists rest, s = p ++ rest.
Proof.
  unfold startswith. revert s. induction p as [|c p IH]; intros s.
  - rewrite prefix_empty. split; [intros _; now exists s | reflexivity].
  - destruct s as [|c' s].
    + split; [discriminate | intros [rest H]; discriminate].
    + cbn [String.prefix append]. destruct (ascii_dec c c') as [<- | Hne].
      * rewrite IH. split; intros [rest H]; exists rest; congruence.
      * split; [discriminate | intros [rest H]; congruence].
Qed.

Lemma longer_id_differs (eid rest : string) : eid ++ ":" ++ rest <> eid.
Proof.
  intros H. apply (f_equal String.length) in H.
  rewrite length_append in H. simpl in H. lia.
Qed.

End Strings.

(* ================================================================== *)
(** ** The facts of an entity *)
(* ================================================================== *)

Section EntityFacts.

Variables (kg : KnowledgeGraph) (etype eid : string).

Let prefix : string := (etype ++ ":" ++ eid ++ ":")%string.

(** [get_entity_facts] lists the values of the dict entries whose key
    starts with the prefix. *)
Lemma get_entity_facts_in (f : AtomicFact) :
  In f (get_entity_facts kg etype eid) <->
  exists k, In (k, f) (facts (store kg)) /\ startswith k prefix = true.
Proof.
  unfold get_entity_facts. rewrite in_map_iff. split.
  - intros ([k f'] & Hf & Hin). simpl in Hf. subst f'.
    apply filter_In in Hin. exists k. exact Hin.
  - intros (k & Hin & Hp). exists (k, f). split; [reflexivity|].
    apply filter_In. auto.
Qed.

Lemma get_entity_facts_subseq :
  subseq (get_entity_facts kg etype eid) (map snd (facts (store kg))).
Proof.
  unfold get_entity_facts.
  induction (facts (store kg)) as [|[k f] d IH]; simpl; [constructor|].
  destruct (startswith k _); simpl; now constructor.
Qed.

End EntityFacts.

(** C10. [get_entity_facts] selects by the prefix of the key string: it
    lists the current facts whose key is the entity type, a colon, the
    queried id, a colon, and anything more, and no others. So a query
    for an entity also returns the current facts of every other entity
    of the same type whose id is the queried id, a colon, and more: as
    soon as a candidate of such an entity is admitted, the fact stored
    for it is listed under the shorter id. *)
Theorem get_entity_facts_longer_id (kg : KnowledgeGraph)
    (etype eid : string) :
  (forall f,
     In f (get_entity_facts kg etype eid) <->
     exists k rest,
       In (k, f) (facts (store kg)) /\
       k = (etype ++ ":" ++ eid ++ ":" ++ rest)%string) /\
  (forall rest fld f,
     get_fact kg etype (eid ++ ":" ++ rest) fld = Some f ->
     In f (get_entity_facts kg etype eid) /\
     (eid ++ ":" ++ rest)%string <> eid) /\
  (forall now fact rest,
     entity_type fact = etype ->
     entity_id fact = (eid ++ ":" ++ rest)%string ->
     let r := upsert_fact now fact kg in
     returned r = true ->
     exists stored,
       get_fact (graph_after r) etype (entity_id fact) (field fact)
         = Some stored /\
       In stored (get_entity_facts (graph_after r) etype eid) /\
       entity_id stored = (eid ++ ":" ++ rest)%string /\
       entity_id stored <> eid).
Proof.
  assert (Hlonger : forall kg0 rest fld f,
    get_fact kg0 etype (eid ++ ":" ++ rest) fld = Some f ->
    In f (get_entity_facts kg0 etype eid)).
  { unfold get_fact. intros kg0 rest fld f H. apply get_entity_facts_in.
    exists (make_key etype (eid ++ ":" ++ rest) fld). split.
    - now apply dict_get_in.
    - apply longer_key_startswith. }
  split; [|split].
  - intros f. rewrite get_entity_facts_in. split.
    + intros (k & Hin & Hp). apply startswith_append in Hp.
      destruct Hp as [rest ->]. exists (etype ++ ":" ++ eid ++ ":" ++ rest)%string, rest.
      split; [|reflexivity]. now rewrite !append_assoc in Hin.
    + intros (k & rest & Hin & ->).
      exists (etype ++ ":" ++ eid ++ ":" ++ rest)%string. split; [exact Hin|].
      apply startswith_append. exists rest. now rewrite !append_assoc.
  - intros rest fld f H. split; [now apply (Hlonger kg rest fld) |].
    apply longer_id_differs.
  - intros now fact rest Ht Hi r Hr.
    assert (Hst : exists stored,
              get_fact (graph_after r) (entity_type fact) (entity_id fact)
                (field fact) = Some stored /\
              entity_id stored = entity_id fact).
    { unfold get_fact. fold (fact_key fact). revert Hr. unfold r.
      upsert_cases now fact kg; [discriminate | |]; intros _;
        eexists; (split; [apply dict_get_set_same | reflexivity]). }
    destruct Hst as (stored & Hget & Hid). rewrite Ht in Hget.
    exists stored. split; [exact Hget|]. split; [|split].
    + rewrite Hi in Hget. now apply (Hlonger _ rest (field fact)).
    + now rewrite Hid.
    + rewrite Hid, Hi. apply longer_id_differs.
Qed.

Lemma get_entity_facts_longer_id_example :
  In (set_updated_at (new_year - 1 * hour) (tier 3))
     (get_entity_facts ozempic_graph "coverage" "ozempic") /\
  ("ozempic" ++ ":" ++ "aetna_comm")%string <> "ozempic"%string.
Proof.
  apply (proj1 (proj2 (get_entity_facts_longer_id ozempic_graph
                         "coverage" "ozempic"))
           "aetna_comm"%string "formulary_tier"%string).
  reflexivity.
Defined.

Section EntityFactsOrder.

Variable p : string -> bool.

Let selected (d : FactDict) : FactDict := filter (fun kf => p (fst kf)) d.

Lemma selected_nodup (d : FactDict) :
  NoDup (map fst d) -> NoDup (map fst (selected d)).
Proof.
  induction d as [|[k f] d IH]; simpl; intros H; [constructor|].
  inversion H as [|? ? Hnot Hnd]; subst.
  destruct (p k); simpl; auto.
  constructor; auto.
  intros Hin. apply Hnot. apply in_map_iff in Hin.
  destruct Hin as (kf & Hk & Hin). apply filter_In in Hin.
  apply in_map_iff. exists kf. tauto.
Qed.

Lemma selected_keys (d : FactDict) :
  (forall k f, In (k, f) d -> fact_key f = k) ->
  map fact_key (map snd (selected d)) = map fst (selected d).
Proof.
  induction d as [|[k f] d IH]; simpl; intros H; [reflexivity|].
  destruct (p k); simpl.
  - rewrite IH by (intros; apply H; now right).
    f_equal. apply H. now left.
  - apply IH. intros. apply H. now right.
Qed.

(** Assigning to a key the dict holds moves nothing. *)
Lemma selected_set_keys (k : string) (v : AtomicFact) (d : FactDict) :
  dict_get k d <> None ->
  map fst (selected (dict_set k v d)) = map fst (selected d).
Proof.
  induction d as [|[k' v'] d IH]; simpl; intros H; [congruence|].
  destruct (String.eqb k' k) eqn:E; simpl.
  - destruct (p k'); reflexivity.
  - destruct (p k'); simpl; now rewrite IH.
Qed.

End EntityFactsOrder.

(** After a run of submissions to one key, each with a value that
    differs from the one before it, the current fact is the last one
    submitted. *)
Lemma submit_all_last (subs : list (datetime * AtomicFact)) :
  forall kg t f,
    (forall s, In s subs -> fact_key (snd s) = fact_key f) ->
    distinct_from
      (option_map value (dict_get (fact_key f) (facts (store kg))))
      (subs ++ [(t, f)]) ->
    exists prev,
      dict_get (fact_key f) (facts (store (submit_all (subs ++ [(t, f)]) kg)))
      = Some (set_updated_at t (set_previous_value prev f)).
Proof.
  induction subs as [|[t0 f0] subs IH]; intros kg t f Hkeys Hd.
  - simpl in *. destruct Hd as [Hd _].
    destruct (dict_get (fact_key f) (facts (store kg))) as [existing|] eqn:G.
    + simpl in Hd. rewrite (upsert_fact_differs t f kg existing G Hd). simpl.
      exists (value existing). apply dict_get_set_same.
    + rewrite (upsert_fact_first t f kg G). simpl.
      exists (previous_value f). rewrite dict_get_set_same.
      now destruct f.
  - simpl in Hd. destruct Hd as [Hfirst Hrest].
    assert (Hk0 : fact_key f0 = fact_key f) by (apply (Hkeys (t0, f0)); now left).
    simpl. apply IH.
    + intros s Hs. apply Hkeys. now right.
    + assert (Hcur : exists stored,
        dict_get (fact_key f)
          (facts (store (graph_after (upsert_fact t0 f0 kg)))) = Some stored /\
        value stored = value f0).
      { rewrite <- Hk0 in *.
        destruct (dict_get (fact_key f0) (facts (store kg)))
          as [existing|] eqn:G.
        - simpl in Hfirst.
          rewrite (upsert_fact_differs t0 f0 kg existing G Hfirst). simpl.
          eexists. split; [apply dict_get_set_same | reflexivity].
        - rewrite (upsert_fact_first t0 f0 kg G). simpl.
          eexists. split; [apply dict_get_set_same | reflexivity]. }
      destruct Hcur as (stored & Hget & Hval).
      rewrite Hget. simpl. now rewrite Hval.
Qed.

(** C4, as the code has it. In a graph the class can be in,
    [get_entity_facts] returns the current facts whose key starts with
    [entity_type:entity_id:], those of the entity among them, each key
    once, in the order in which the keys were first stored: a candidate
    for a new key goes to the end, one for a held key takes the place of
    the fact it replaces. After a run of submissions to one key, each
    value differing from the one before, [get_fact] returns the last
    one. *)
Theorem get_entity_facts_by_key_prefix (kg : KnowledgeGraph)
    (etype eid : string) :
  reachable kg ->
  let prefix := (etype ++ ":" ++ eid ++ ":")%string in
  (forall f, In f (get_entity_facts kg etype eid) <->
     exists k, startswith k prefix = true /\
               dict_get k (facts (store kg)) = Some f) /\
  (forall fld f, get_fact kg etype eid fld = Some f ->
     In f (get_entity_facts kg etype eid)) /\
  NoDup (map fact_key (get_entity_facts kg etype eid)) /\
  subseq (get_entity_facts kg etype eid) (map snd (facts (store kg))) /\
  (forall now fact,
     startswith (fact_key fact) prefix = true ->
     let kg' := graph_after (upsert_fact now fact kg) in
     match dict_get (fact_key fact) (facts (store kg)) with
     | None =>
         get_entity_facts kg' etype eid =
         get_entity_facts kg etype eid ++ [set_updated_at now fact]
     | Some _ =>
         map fact_key (get_entity_facts kg' etype eid) =
         map fact_key (get_entity_facts kg etype eid)
     end) /\
  (forall subs t f,
     (forall s, In s subs -> fact_key (snd s) = fact_key f) ->
     distinct_from
       (option_map value
          (get_fact kg (entity_type f) (entity_id f) (field f)))
       (subs ++ [(t, f)]) ->
     exists prev,
       get_fact (submit_all (subs ++ [(t, f)]) kg)
         (entity_type f) (entity_id f) (field f)
       = Some (set_updated_at t (set_previous_value prev f))).
Proof.
  intros Hreach prefix.
  destruct (reachable_invariant kg Hreach) as (Hnd & Hkeys & _).
  split; [|split; [|split; [|split; [|split]]]].
  - intros f. rewrite get_entity_facts_in. fold prefix. split.
    + intros (k & Hin & Hp). exists k. split; [exact Hp|].
      now apply dict_in_get.
    + intros (k & Hp & Hget). exists k. split; [|exact Hp].
      now apply dict_get_in.
  - intros fld f Hget. apply get_entity_facts_in.
    exists (make_key etype eid fld). split.
    + now apply dict_get_in.
    + apply key_startswith.
  - unfold get_entity_facts.
    pose proof (selected_keys (fun k => startswith k prefix) _ Hkeys) as Hsel.
    cbv beta in Hsel. fold prefix. rewrite Hsel.
    now apply (selected_nodup (fun k => startswith k prefix)).
  - apply get_entity_facts_subseq.
  - intros now fact Hp kg'.
    destruct (dict_get (fact_key fact) (facts (store kg))) as [existing|] eqn:G.
    + destruct (py_eq (value existing) (value fact)) eqn:E; unfold kg'.
      * now rewrite (upsert_fact_same now fact kg existing G E).
      * pose proof (upsert_fact_invariant now fact kg
                      (reachable_invariant kg Hreach)) as (_ & Hkeys' & _).
        rewrite (upsert_fact_differs now fact kg existing G E) in *.
        cbn [graph_after store facts] in Hkeys' |- *.
        unfold get_entity_facts. cbn [graph_after store facts]. fold prefix.
        pose proof (selected_keys (fun k => startswith k prefix) _ Hkeys')
          as Hsel'.
        pose proof (selected_keys (fun k => startswith k prefix) _ Hkeys)
          as Hsel.
        cbv beta in Hsel, Hsel'. rewrite Hsel, Hsel'.
        apply (selected_set_keys (fun k => startswith k prefix)). congruence.
    + unfold kg'. rewrite (upsert_fact_first now fact kg G).
      unfold get_entity_facts. cbn [graph_after store facts].
      rewrite dict_set_new by exact G.
      rewrite filter_app, map_app. cbn [filter fst]. fold prefix.
      now rewrite Hp.
  - intros subs t f Hsame Hd. unfold get_fact in *.
    fold (fact_key f) in *. now apply submit_all_last.
Qed.

Lemma get_entity_facts_by_key_prefix_example :
  let prefix := ("coverage" ++ ":" ++ "ozempic" ++ ":")%string in
  (forall f, In f (get_entity_facts ozempic_graph "coverage" "ozempic") <->
     exists k, startswith k prefix = true /\
               dict_get k (facts (store ozempic_graph)) = Some f) /\
  (forall fld f, get_fact ozempic_graph "coverage" "ozempic" fld = Some f ->
     In f (get_entity_facts ozempic_graph "coverage" "ozempic")) /\
  NoDup (map fact_key (get_entity_facts ozempic_graph "coverage" "ozempic")) /\
  subseq (get_entity_facts ozempic_graph "coverage" "ozempic")
    (map snd (facts (store ozempic_graph))) /\
  (forall now fact,
     startswith (fact_key fact) prefix = true ->
     let kg' := graph_after (upsert_fact now fact ozempic_graph) in
     match dict_get (fact_key fact) (facts (store ozempic_graph)) with
     | None =>
         get_entity_facts kg' "coverage" "ozempic" =
         get_entity_facts ozempic_graph "coverage" "ozempic" ++
           [set_updated_at now fact]
     | Some _ =>
         map fact_key (get_entity_facts kg' "coverage" "ozempic") =
         map fact_key (get_entity_facts ozempic_graph "coverage" "ozempic")
     end) /\
  (forall subs t f,
     (forall s, In s subs -> fact_key (snd s) = fact_key f) ->
     distinct_from
       (option_map value
          (get_fact ozempic_graph (entity_type f) (entity_id f) (field f)))
       (subs ++ [(t, f)]) ->
     exists prev,
       get_fact (submit_all (subs ++ [(t, f)]) ozempic_graph)
         (entity_type f) (entity_id f) (field f)
       = Some (set_updated_at t (set_previous_value prev f))).
Proof.
  apply (get_entity_facts_by_key_prefix ozempic_graph "coverage" "ozempic").
  unfold ozempic_graph. cbn [submit_all].
  repeat apply reach_upsert. apply reach_init.
Defined.

(** C4, as stated, fails: the facts returned for Ozempic come in the
    order they were first stored, [pa_required] before
    [formulary_tier], and the tier under one payer's plan, a fact of
    another entity, is listed with them, so that the field
    [formulary_tier] is listed twice. *)
Lemma get_entity_facts_not_sorted :
  map (fun f => (entity_id f, field f))
    (get_entity_facts ozempic_graph "coverage" "ozempic") =
    [("ozempic", "pa_required");
     ("ozempic", "formulary_tier");
     ("ozempic:aetna_comm", "formulary_tier")]%string /\
  fields_ascendingb (get_entity_facts ozempic_graph "coverage" "ozempic")
  = false.
Proof. split; vm_compute; reflexivity. Qed.

(* ================================================================== *)
(** ** The validator *)
(* ================================================================== *)

(** The rules know three confidences. *)
Lemma _apply_rules_values (fact : AtomicFact) :
  _apply_rules fact = (false, 0.0%float) \/
  _apply_rules fact = (true, 0.7%float) \/
  _apply_rules fact = (true, 0.9%float).
Proof.
  unfold _apply_rules.
  destruct (py_eq (value fact) (previous_value fact)); auto.
  destruct (String.eqb (entity_type fact) "price" && is_number (value fact));
    auto.
  destruct (py_lt_int (value fact) 0) as [[|]|]; auto;
    destruct (py_gt_int (value fact) 100000) as [[|]|]; auto.
Qed.

(** [validate] returns [True] for every candidate. *)
Lemma validate_is_valid (fact : AtomicFact) : fst (fst (validate fact)) = true.
Proof.
  unfold validate.
  now destruct (8 <=? importance_value (importance fact)).
Qed.

(** C7. For every candidate, [validate] returns [True] with the rule
    confidence times 0.4 plus the scorer confidence times 0.6, in
    binary64 arithmetic; at importance 8 or more, which is [MAJOR],
    [CRITICAL] and [URGENT], that confidence is multiplied by 0.95 and
    the reason reads pending verification, the candidate still valid.
    The scorer's confidence is 0.92 and the rules' is 0.0, 0.7 or 0.9. *)
Theorem validate_confidence (fact : AtomicFact) :
  let rule := snd (_apply_rules fact) in
  let scorer := snd (_llm_validate fact) in
  let combined := (rule * 0.4 + scorer * 0.6)%float in
  (scorer = 0.92%float /\
   (rule = 0.0%float \/ rule = 0.7%float \/ rule = 0.9%float)) /\
  (8 <= importance_value (importance fact) <->
   importance fact = MAJOR \/ importance fact = CRITICAL \/
   importance fact = URGENT) /\
  (importance_value (importance fact) < 8 ->
   validate fact = (true, combined, "Auto-validated"%string)) /\
  (8 <= importance_value (importance fact) ->
   validate fact =
   (true, (combined * 0.95)%float, "Pending pharmacist verification"%string)).
Proof.
  intros rule scorer combined. split; [|split; [|split]].
  - split; [reflexivity|]. unfold rule.
    destruct (_apply_rules_values fact) as [H | [H | H]]; rewrite H; auto.
  - destruct (importance fact); simpl; split;
      try (intros; lia); try (intros [H | [H | H]]; discriminate H);
      intros _; auto.
  - intros H. unfold validate. apply Z.leb_gt in H. now rewrite H.
  - intros H. unfold validate. apply Z.leb_le in H. now rewrite H.
Qed.

(** The confidences [validate] gives a candidate that passes the rules,
    at high importance and below it. *)
Example validate_tier_change :
  validate (set_previous_value (VInt 3) (tier 2)) =
    (true, 0.86640000000000006%float, "Pending pharmacist verification"%string)
  /\
  validate (cash_price (VFloat 842.0)) =
    (true, 0.91200000000000014%float, "Auto-validated"%string).
Proof. split; vm_compute; reflexivity. Qed.

(** C6, on the code. The rules reject a negative price and a value
    equal to the previous one, [validate] returns [True] for both, with
    the confidence that a zero rule confidence leaves; a price above
    100000 passes the rules with confidence 0.7 in place of 0.9. *)
Theorem validate_ignores_the_rules :
  _apply_rules (cash_price (VFloat (-5.0))) = (false, 0.0%float) /\
  validate (cash_price (VFloat (-5.0))) =
    (true, 0.55200000000000005%float, "Auto-validated"%string) /\
  _apply_rules (set_previous_value (VInt 2) (tier 2)) = (false, 0.0%float) /\
  validate (set_previous_value (VInt 2) (tier 2)) =
    (true, 0.52439999999999998%float, "Pending pharmacist verification"%string)
  /\
  _apply_rules (cash_price (VInt 250000)) = (true, 0.7%float) /\
  validate (cash_price (VInt 250000)) =
    (true, 0.83200000000000007%float, "Auto-validated"%string).
Proof. repeat split; vm_compute; reflexivity. Qed.

(* ================================================================== *)
(** ** The severity table *)
(* ================================================================== *)

Lemma py_sub_ints (x y : PyVal) (a b : Z) :
  as_int x = Some a -> as_int y = Some b -> py_sub x y = Ret (VInt (a - b)).
Proof.
  destruct x, y; simpl; intros Ha Hb; try discriminate;
    inversion Ha; inversion Hb; reflexivity.
Qed.

Lemma py_ge_int_int (d n : Z) : py_ge_int (VInt d) n = Ret (n <=? d).
Proof.
  unfold py_ge_int. simpl. f_equal.
  destruct (Z.compare_spec d n); destruct (Z.leb_spec n d); try lia;
    reflexivity.
Qed.

(** Whole dollars subtract exactly. *)
Lemma copay_delta_dollars (fact : AtomicFact) (a b : Z) :
  dollars (value fact) = Some a ->
  dollars (previous_value fact) = Some b ->
  copay_delta fact = Ret (VInt (Z.abs (a - b))).
Proof.
  unfold dollars, copay_delta. intros Ha Hb.
  now rewrite (py_sub_ints _ _ _ _ Ha Hb).
Qed.

(** A copay that is a text cannot be subtracted. *)
Lemma copay_delta_text (fact : AtomicFact) (s : string) :
  value fact = VStr s -> s <> EmptyString ->
  copay_delta fact = Raise TypeError.
Proof.
  unfold copay_delta, py_or. intros Hv Hs. rewrite Hv.
  assert (Ht : truthy (VStr s) = true).
  { simpl. now destruct (String.eqb_spec s EmptyString). }
  rewrite Ht. reflexivity.
Qed.

(** The copay rule, read off the difference. *)
Lemma copay_rule (fact : AtomicFact) :
  (d <- py_sub (py_or (value fact) (VInt 0))
               (py_or (previous_value fact) (VInt 0)) ;;
   diff <- py_abs d ;;
   big <- py_ge_int diff 20 ;;
   if big : bool then Ret SIGNIFICANT
   else mid <- py_ge_int diff 5 ;;
        if mid : bool then Ret MODERATE else Ret LOW)
  = match copay_delta fact with
    | Ret (VInt d) => Ret (copay_bucket d)
    | Ret (VFloat d) => Ret (copay_bucket_float d)
    | Ret _ => Raise TypeError
    | Raise e => Raise e
    end.
Proof.
  unfold copay_delta.
  destruct (py_sub _ _) as [d|e]; [|reflexivity].
  destruct d as [|b|z|f|s]; cbn [bind py_abs]; try reflexivity.
  - rewrite !py_ge_int_int. unfold copay_bucket. cbn [bind].
    destruct (20 <=? Z.b2z b); [reflexivity|].
    now destruct (5 <=? Z.b2z b).
  - rewrite !py_ge_int_int. unfold copay_bucket. cbn [bind].
    destruct (20 <=? Z.abs z); [reflexivity|].
    now destruct (5 <=? Z.abs z).
  - unfold py_ge_int, copay_bucket_float. cbn [py_compare_int bind].
    destruct (float_compare_Z (PrimFloat.abs f) 20) as [[| |]|];
      try reflexivity;
      destruct (float_compare_Z (PrimFloat.abs f) 5) as [[| |]|];
      reflexivity.
Qed.

(** C5, as the code has it. The rules are tried in the order tier
    change, [pa_required], [shortage], [warning], [copay], and the first
    whose word the lowered field name holds decides: a tier field whose
    value differs from the previous one is [MAJOR]; otherwise
    [pa_required] is [HIGH]; otherwise [shortage] is [URGENT]; otherwise
    [warning] is [CRITICAL]; otherwise [copay] is bucketed by the
    absolute difference of value and previous value, a missing one
    counting as 0: at least 20 is [SIGNIFICANT], at least 5 is
    [MODERATE], less is [LOW]; a field no rule matches is [MODERATE].
    The difference is Python's: exact on whole dollars, rounded to
    binary64 when a value is a float, a [TypeError] when one is a text.
    A tier going from 3 to 2 is of importance 8. *)
Theorem score_importance_first_match (fact : AtomicFact) :
  (tier_change fact = true -> score_importance fact = Ret MAJOR) /\
  (names fact "tier" = true ->
   value fact = VInt 2 -> previous_value fact = VInt 3 ->
   score_importance fact = Ret MAJOR /\ importance_value MAJOR = 8) /\
  (tier_change fact = false ->
   (names fact "pa_required" = true -> score_importance fact = Ret HIGH) /\
   (names fact "pa_required" = false ->
    (names fact "shortage" = true -> score_importance fact = Ret URGENT) /\
    (names fact "shortage" = false ->
     (names fact "warning" = true -> score_importance fact = Ret CRITICAL) /\
     (names fact "warning" = false ->
      (names fact "copay" = false -> score_importance fact = Ret MODERATE) /\
      (names fact "copay" = true ->
       (forall a b,
          dollars (value fact) = Some a ->
          dollars (previous_value fact) = Some b ->
          score_importance fact = Ret (copay_bucket (Z.abs (a - b)))) /\
       (forall d,
          copay_delta fact = Ret (VInt d) ->
          score_importance fact = Ret (copay_bucket d)) /\
       (forall d,
          copay_delta fact = Ret (VFloat d) ->
          score_importance fact = Ret (copay_bucket_float d)) /\
       (forall e,
          copay_delta fact = Raise e -> score_importance fact = Raise e) /\
       (forall s,
          value fact = VStr s -> s <> EmptyString ->
          score_importance fact = Raise TypeError)))))).
Proof.
  unfold tier_change, names, score_importance.
  split; [|split].
  - intros H. now rewrite H.
  - intros Ht Hv Hp. rewrite Ht, Hv, Hp. split; reflexivity.
  - intros Htier. rewrite Htier. split; [intros H; now rewrite H|].
    intros Hpa. rewrite Hpa. split; [intros H; now rewrite H|].
    intros Hsh. rewrite Hsh. split; [intros H; now rewrite H|].
    intros Hw. rewrite Hw. split; [intros H; now rewrite H|].
    intros Hc. rewrite Hc, copay_rule.
    split; [|split; [|split; [|split]]].
    + intros a b Ha Hb. now rewrite (copay_delta_dollars fact a b Ha Hb).
    + intros d Hd. now rewrite Hd.
    + intros d Hd. now rewrite Hd.
    + intros e He. now rewrite He.
    + intros s Hv Hs. now rewrite (copay_delta_text fact s Hv Hs).
Qed.

(** C5, as stated, fails where a field name holds two words of the
    table: [shortage_warning] is a warning field and scores [URGENT],
    not [CRITICAL]; [copay_tier], a copay going from 10 to 15, scores
    [MAJOR], not [MODERATE]. *)
Lemma score_importance_two_words :
  names shortage_warning "warning" = true /\
  score_importance shortage_warning = Ret URGENT /\
  names copay_tier "copay" = true /\
  dollars (value copay_tier) = Some 15 /\
  dollars (previous_value copay_tier) = Some 10 /\
  copay_bucket (Z.abs (15 - 10)) = MODERATE /\
  score_importance copay_tier = Ret MAJOR.
Proof. repeat split. Qed.

(* ================================================================== *)
(** ** Runs of submissions *)
(* ================================================================== *)

(** One [upsert_fact] keeps the history it found as a prefix, keeps the
    keys it found in their places, and adds at most one of each. *)
Lemma upsert_fact_grows (now : datetime) (fact : AtomicFact)
    (kg : KnowledgeGraph) :
  let kg' := graph_after (upsert_fact now fact kg) in
  (exists extra,
     change_history (store kg') = change_history (store kg) ++ extra /\
     (List.length extra <= 1)%nat) /\
  (exists new,
     map fst (facts (store kg')) = map fst (facts (store kg)) ++ new /\
     (List.length new <= 1)%nat /\
     (forall k, In k new -> k = fact_key fact)) /\
  subscribers kg' = subscribers kg.
Proof.
  upsert_cases now fact kg; (split; [|split; [|reflexivity]]).
  - exists []. rewrite app_nil_r. simpl. auto.
  - exists []. rewrite app_nil_r. simpl. repeat split; auto. intros k [].
  - eexists. split; [reflexivity | simpl; lia].
  - exists []. rewrite app_nil_r. simpl. repeat split; auto.
    + apply dict_set_keys. congruence.
    + intros k [].
  - exists []. rewrite app_nil_r. simpl. auto.
  - exists [fact_key fact]. rewrite dict_set_new by assumption.
    rewrite map_app. simpl. repeat split; auto.
    intros k [<- | []]. reflexivity.
Qed.

(** X1. Over any run of submissions the history only grows at its end,
    by at most one entry a submission, and the dict only gains keys, at
    its end: what was in the history stays, in place and unchanged, and
    a key that held a fact holds one ever after. Subscribers are left
    alone. *)
Theorem submit_all_append_only (subs : list (datetime * AtomicFact))
    (kg : KnowledgeGraph) :
  let kg' := submit_all subs kg in
  (exists extra,
     change_history (store kg') = change_history (store kg) ++ extra /\
     (List.length extra <= List.length subs)%nat) /\
  (exists new,
     map fst (facts (store kg')) = map fst (facts (store kg)) ++ new /\
     (List.length new <= List.length subs)%nat /\
     (forall k, In k new -> In k (submitted_keys subs))) /\
  subscribers kg' = subscribers kg.
Proof.
  revert kg. induction subs as [|[t f] subs IH]; intros kg; simpl.
  - split; [|split; [|reflexivity]]; exists []; rewrite app_nil_r; simpl;
      repeat split; auto; intros k [].
  - destruct (IH (graph_after (upsert_fact t f kg)))
      as ((ex & Hh & Hl) & (nw & Hk & Hn & Hin) & Hs).
    destruct (upsert_fact_grows t f kg)
      as ((ex1 & Hh1 & Hl1) & (nw1 & Hk1 & Hn1 & Hin1) & Hs1).
    split; [|split].
    + exists (ex1 ++ ex). rewrite Hh, Hh1, app_assoc. split; [reflexivity|].
      rewrite length_app. lia.
    + exists (nw1 ++ nw). rewrite Hk, Hk1, app_assoc.
      split; [reflexivity|]. split; [rewrite length_app; lia|].
      intros k Hkin. apply in_app_or in Hkin. destruct Hkin as [H1 | H2].
      * left. symmetry. now apply Hin1.
      * right. now apply Hin.
    + now rewrite Hs, Hs1.
Qed.

Lemma dict_get_some_keys (k : string) (f : AtomicFact) (d : FactDict) :
  dict_get k d = Some f -> In k (map fst d).
Proof.
  intros H. apply dict_get_in in H. change k with (fst (k, f)).
  now apply in_map.
Qed.

(** After an [upsert_fact] the dict holds the keys it held and the
    candidate's. *)
Lemma upsert_fact_keys (now : datetime) (fact : AtomicFact)
    (kg : KnowledgeGraph) (k : string) :
  In k (map fst (facts (store (graph_after (upsert_fact now fact kg))))) <->
  In k (map fst (facts (store kg))) \/ k = fact_key fact.
Proof.
  upsert_cases now fact kg.
  - split; [auto | intros [H | ->]; [auto | eapply dict_get_some_keys; eauto]].
  - rewrite dict_set_keys by congruence.
    split; [auto | intros [H | ->]; [auto | eapply dict_get_some_keys; eauto]].
  - rewrite dict_set_new by assumption. rewrite map_app, in_app_iff. simpl.
    intuition congruence.
Qed.

Lemma submit_all_invariant (subs : list (datetime * AtomicFact)) :
  forall kg, graph_invariant kg -> graph_invariant (submit_all subs kg).
Proof.
  induction subs as [|[t f] subs IH]; intros kg H; simpl; auto.
  apply IH. now apply upsert_fact_invariant.
Qed.

Lemma submit_all_keys (subs : list (datetime * AtomicFact)) :
  forall kg k,
    In k (map fst (facts (store (submit_all subs kg)))) <->
    In k (map fst (facts (store kg))) \/ In k (submitted_keys subs).
Proof.
  induction subs as [|[t f] subs IH]; intros kg k; simpl.
  - tauto.
  - rewrite IH, upsert_fact_keys. intuition.
Qed.

Lemma submit_all_length (subs : list (datetime * AtomicFact)) :
  forall kg,
    (List.length (facts (store (submit_all subs kg))) <=
     List.length (facts (store kg)) + List.length subs)%nat.
Proof.
  induction subs as [|[t f] subs IH]; intros kg; simpl; [lia|].
  specialize (IH (graph_after (upsert_fact t f kg))).
  destruct (upsert_fact_grows t f kg) as (_ & (new & Hk & Hn & _) & _).
  apply (f_equal (@List.length string)) in Hk.
  rewrite length_app, !length_map in Hk. lia.
Qed.

(** X2. In a graph fed from its creation by a run of submissions, the
    current facts are one for each key submitted: the keys of the dict
    are distinct and are exactly the submitted keys, every stored fact
    sits under its own key, and there are at most as many facts as
    submissions. *)
Theorem submit_all_one_fact_per_key (subs : list (datetime * AtomicFact))
    (subs0 : list Callback) :
  let kg := submit_all subs (fresh_graph subs0) in
  NoDup (map fst (facts (store kg))) /\
  (forall k, In k (map fst (facts (store kg))) <-> In k (submitted_keys subs)) /\
  (forall k, In k (submitted_keys subs) <->
             exists f, dict_get k (facts (store kg)) = Some f /\ fact_key f = k) /\
  (List.length (facts (store kg)) <= List.length subs)%nat.
Proof.
  intros kg.
  assert (Hinv : graph_invariant kg).
  { apply submit_all_invariant. unfold graph_invariant, fresh_graph. simpl.
    repeat split; [constructor | tauto | tauto]. }
  destruct Hinv as (Hnd & Hkeys & _).
  assert (Hmem : forall k, In k (map fst (facts (store kg))) <->
                           In k (submitted_keys subs)).
  { intros k. unfold kg. rewrite submit_all_keys. simpl. tauto. }
  split; [exact Hnd|]. split; [exact Hmem|]. split.
  - intros k. rewrite <- Hmem. split.
    + intros Hin. apply in_map_iff in Hin. destruct Hin as ([k' f] & <- & Hin).
      exists f. split; [now apply dict_in_get | now apply Hkeys].
    + intros (f & Hget & _). eapply dict_get_some_keys; eauto.
  - pose proof (submit_all_length subs (fresh_graph subs0)) as Hlen.
    simpl in Hlen. exact Hlen.
Qed.

(* ================================================================== *)
(** ** What the history holds *)
(* ================================================================== *)

Lemma tiers_graph_reachable : reachable tiers_graph.
Proof.
  unfold tiers_graph. cbn [submit_all].
  repeat apply reach_upsert. apply reach_init.
Qed.

(** Every history entry records a change of value. *)
Lemma history_changes_invariant (kg : KnowledgeGraph) :
  reachable kg ->
  forall h, In h (change_history (store kg)) ->
    py_eq (previous_value h) (value h) = false.
Proof.
  induction 1 as [|cb kg _ IH|now fact kg _ IH]; simpl.
  - intros h [].
  - exact IH.
  - upsert_cases now fact kg; auto.
    intros h Hin. apply in_app_or in Hin.
    destruct Hin as [Hin | [<- | []]]; [auto | exact E].
Qed.

(** X3. In a graph the class can be in, every history entry records a
    real change: its [previous_value] is not equal ([==]) to its
    [value], and the dict holds a current fact under its key. A first
    observation and a resubmission never make an entry. *)
Theorem history_entries_are_changes (kg : KnowledgeGraph) (h : AtomicFact) :
  reachable kg ->
  In h (change_history (store kg)) ->
  py_eq (previous_value h) (value h) = false /\
  exists current,
    get_fact kg (entity_type h) (entity_id h) (field h) = Some current.
Proof.
  intros Hreach Hin. split.
  - now apply (history_changes_invariant kg Hreach).
  - destruct (reachable_invariant kg Hreach) as (_ & _ & Hcur).
    specialize (Hcur h Hin). unfold get_fact. fold (fact_key h).
    destruct (dict_get (fact_key h) (facts (store kg))) as [c|];
      [now exists c | congruence].
Qed.

Lemma history_entries_are_changes_example :
  py_eq (VInt 3) (VInt 2) = false /\
  exists current,
    get_fact tiers_graph "coverage" "ozempic:aetna_comm" "formulary_tier"
    = Some current.
Proof.
  apply (history_entries_are_changes tiers_graph
           (set_updated_at (new_year - 2 * hour)
              (set_previous_value (VInt 3) (tier 2)))).
  - exact tiers_graph_reachable.
  - left. reflexivity.
Defined.

Lemma last_change_snoc (k : string) (history : list AtomicFact)
    (h : AtomicFact) :
  last_change k (history ++ [h]) =
  if String.eqb (fact_key h) k then Some h else last_change k history.
Proof. unfold last_change. now rewrite rev_app_distr. Qed.

(** X4. In a graph the class can be in, the most recent history entry
    of a key is the key's current fact: what [get_fact] returns for a
    key that ever changed is the last change recorded for it. *)
Theorem last_change_is_current (kg : KnowledgeGraph) (k : string)
    (h : AtomicFact) :
  reachable kg ->
  last_change k (change_history (store kg)) = Some h ->
  dict_get k (facts (store kg)) = Some h /\
  get_fact kg (entity_type h) (entity_id h) (field h) = Some h.
Proof.
  intros Hreach. revert k h.
  assert (Hmain : forall k h,
            last_change k (change_history (store kg)) = Some h ->
            dict_get k (facts (store kg)) = Some h).
  { induction Hreach as [|cb kg _ IH|now fact kg _ IH]; simpl.
    - discriminate.
    - exact IH.
    - upsert_cases now fact kg; auto; intros k h.
      + rewrite last_change_snoc.
        change (fact_key (set_updated_at now
                  (set_previous_value (value existing) fact)))
          with (fact_key fact).
        destruct (String.eqb_spec (fact_key fact) k) as [<- | Hne].
        * intros [= <-]. apply dict_get_set_same.
        * intros Hl. rewrite dict_get_set_other by congruence. auto.
      + intros Hl. destruct (String.eqb_spec k (fact_key fact)) as [-> | Hne].
        * apply IH in Hl. congruence.
        * rewrite dict_get_set_other by assumption. auto. }
  intros k h Hl. split; [auto|].
  pose proof (Hmain k h Hl) as Hget.
  destruct (reachable_invariant kg Hreach) as (_ & Hkeys & _).
  apply dict_get_in in Hget. pose proof (Hkeys k h Hget) as Hk.
  unfold get_fact. fold (fact_key h). rewrite Hk.
  apply dict_in_get; [|exact Hget].
  now destruct (reachable_invariant kg Hreach).
Qed.

Lemma last_change_is_current_example :
  let h := set_updated_at (new_year - 1 * hour)
             (set_previous_value (VInt 2) (tier 1)) in
  dict_get "coverage:ozempic:aetna_comm:formulary_tier"
    (facts (store tiers_graph)) = Some h /\
  get_fact tiers_graph "coverage" "ozempic:aetna_comm" "formulary_tier" = Some h.
Proof.
  apply (last_change_is_current tiers_graph
           "coverage:ozempic:aetna_comm:formulary_tier").
  - exact tiers_graph_reachable.
  - reflexivity.
Defined.

(** The readings of a run that goes forward lie between its start and
    its last reading. *)
Lemma clock_forward_bounds (subs : list (datetime * AtomicFact)) :
  forall t0,
    clock_forward t0 subs ->
    t0 <= last_reading t0 subs /\
    forall t c, In (t, c) subs -> t0 <= t <= last_reading t0 subs.
Proof.
  induction subs as [|[t1 c1] subs IH]; intros t0 H; simpl in *.
  - split; [lia | intros t c []].
  - destruct H as [H0 H]. destruct (IH t1 H) as [Hl Hin].
    split; [lia|]. intros t c [[= <- <-] | Hc]; [lia|].
    specialize (Hin t c Hc). lia.
Qed.

Lemma submit_all_oldest_first (subs : list (datetime * AtomicFact)) :
  forall kg t0,
    oldest_first (change_history (store kg)) ->
    (forall h, In h (change_history (store kg)) -> updated_at h <= t0) ->
    clock_forward t0 subs ->
    oldest_first (change_history (store (submit_all subs kg))).
Proof.
  induction subs as [|[t f] subs IH]; intros kg t0 Hs Hle Hc; simpl in *; auto.
  destruct Hc as [H0 Hc]. apply (IH _ t); auto.
  - apply upsert_fact_oldest_first; auto. intros h Hh.
    specialize (Hle h Hh). lia.
  - intros h Hh.
    destruct (upsert_fact_history t f kg) as [Heq | [p Heq]];
      rewrite Heq in Hh.
    + specialize (Hle h Hh). lia.
    + apply in_app_or in Hh. destruct Hh as [Hh | [<- | []]].
      * specialize (Hle h Hh). lia.
      * simpl. lia.
Qed.

(** X5. When the clock never goes back over a run of submissions to a
    new graph, the history is in time order, oldest first, and every
    entry carries a clock reading of the run, between the first and the
    last. *)
Theorem history_in_time_order (subs : list (datetime * AtomicFact))
    (subs0 : list Callback) (t0 : datetime) :
  clock_forward t0 subs ->
  let kg := submit_all subs (fresh_graph subs0) in
  oldest_first (change_history (store kg)) /\
  forall h, In h (change_history (store kg)) ->
    t0 <= updated_at h <= last_reading t0 subs /\
    exists c, In (updated_at h, c) subs.
Proof.
  intros Hc kg. split.
  - apply (submit_all_oldest_first subs (fresh_graph subs0) t0); auto.
    + constructor.
    + intros h [].
  - intros h Hh. apply submit_all_history in Hh.
    destruct Hh as [[] | (t & c & p & Hin & ->)]. simpl.
    destruct (clock_forward_bounds subs t0 Hc) as [_ Hb].
    split; [now apply (Hb t c) | now exists c].
Qed.

Lemma history_in_time_order_example :
  let kg := tiers_graph in
  oldest_first (change_history (store kg)) /\
  forall h, In h (change_history (store kg)) ->
    new_year - 3 * hour <= updated_at h <= new_year - 1 * hour /\
    exists c, In (updated_at h, c)
                [(new_year - 3 * hour, tier 3);
                 (new_year - 2 * hour, tier 2);
                 (new_year - 1 * hour, tier 1)].
Proof.
  apply (history_in_time_order
           [(new_year - 3 * hour, tier 3);
            (new_year - 2 * hour, tier 2);
            (new_year - 1 * hour, tier 1)] [] (new_year - 3 * hour)).
  vm_compute. intuition discriminate.
Defined.

(* ================================================================== *)
(** ** Narrowing the change feed *)
(* ================================================================== *)

Lemma filter_subseq_implied {A : Type} (p q : A -> bool) (l : list A) :
  (forall x, p x = true -> q x = true) ->
  subseq (filter p l) (filter q l).
Proof.
  intros Hpq. induction l as [|x l IH]; simpl; [constructor|].
  destruct (p x) eqn:P.
  - rewrite (Hpq x P). now constructor.
  - destruct (q x); [now constructor | assumption].
Qed.

Lemma subseq_length {A : Type} (l1 l2 : list A) :
  subseq l1 l2 -> (List.length l1 <= List.length l2)%nat.
Proof. induction 1; simpl; lia. Qed.

(** What a returning [get_recent_changes] computed. *)
Lemma get_recent_changes_ret (now : datetime) (kg : KnowledgeGraph)
    (hours min_importance : Z) (l : list AtomicFact) :
  get_recent_changes now kg hours min_importance = Ret l ->
  l = filter
        (fun f => (now - hours * hour <? updated_at f) &&
                  (min_importance <=? importance_value (importance f)))
        (change_history (store kg)).
Proof.
  unfold get_recent_changes, timedelta_hours, datetime_sub, hour.
  destruct (Z.abs _ <=? 999999999); [|discriminate]. cbn [bind].
  destruct ((0 <=? _) && _); [|discriminate]. cbn [bind].
  now intros [= <-].
Qed.

(** X6. A shorter window or a higher minimum importance only removes
    entries from the feed: what [get_recent_changes] returns for them is
    what it returns for the longer window and the lower minimum with
    some entries left out, the order kept. *)
Theorem get_recent_changes_narrows (now : datetime) (kg : KnowledgeGraph)
    (hours hours' min_importance min_importance' : Z)
    (l l' : list AtomicFact) :
  hours <= hours' ->
  min_importance' <= min_importance ->
  get_recent_changes now kg hours min_importance = Ret l ->
  get_recent_changes now kg hours' min_importance' = Ret l' ->
  subseq l l' /\ (List.length l <= List.length l')%nat.
Proof.
  intros Hh Hm Hl Hl'.
  apply get_recent_changes_ret in Hl. apply get_recent_changes_ret in Hl'.
  assert (Hs : subseq l l').
  { subst l l'. apply filter_subseq_implied. intros f.
    rewrite !andb_true_iff, !Z.ltb_lt, !Z.leb_le. unfold hour. nia. }
  split; [exact Hs | now apply subseq_length].
Qed.

Lemma get_recent_changes_narrows_example :
  subseq
    [set_updated_at (new_year - 1 * hour) (set_previous_value (VInt 2) (tier 1))]
    [set_updated_at (new_year - 2 * hour) (set_previous_value (VInt 3) (tier 2));
     set_updated_at (new_year - 1 * hour) (set_previous_value (VInt 2) (tier 1))]
  /\ (1 <= 2)%nat.
Proof.
  apply (get_recent_changes_narrows new_year tiers_graph 2 24 8 5);
    vm_compute; try reflexivity; discriminate.
Defined.

(* ================================================================== *)
(** ** Subscribing *)
(* ================================================================== *)

(** The loop reaches a callback added at the end after all the others,
    unless one of them let an exception escape, and treats the others
    as before. *)
Lemma notify_from_snoc (st : Store) (fact : AtomicFact) (cb : Callback)
    (subs : list Callback) :
  forall i,
    notify_from i st fact (subs ++ [cb]) =
    let n := notify_from i st fact subs in
    let last := mkDelivery (i + List.length subs) fact st (call cb st fact) in
    match n_escaped n with
    | Some _ => n
    | None =>
        mkNotification (n_calls n ++ [last]) (n_printed n ++ failure_line last)
          (first_escape [d_outcome last])
    end.
Proof.
  induction subs as [|c subs IH]; intros i; cbv zeta.
  - cbn [app notify_from n_escaped n_calls n_printed List.length d_outcome].
    rewrite Nat.add_0_r. unfold failure_line. cbn [d_outcome].
    now destruct (call cb st fact).
  - cbn [app notify_from List.length]. specialize (IH (S i)). cbv zeta in IH.
    rewrite Nat.add_succ_r.
    destruct (call c st fact); cbn [n_escaped n_calls n_printed];
      [ | | reflexivity ];
      rewrite IH;
      destruct (n_escaped (notify_from (S i) st fact subs)) eqn:N;
      cbn [n_calls n_printed n_escaped app Nat.add]; rewrite ?N; reflexivity.
Qed.

(** X7. [subscribe] changes nothing but the list of subscribers, and
    puts the callback at its end: an [upsert_fact] on the graph it
    returns stores what it would have without it and takes the same
    [return], calls the earlier subscribers as before, and then, unless
    one of them let an exception escape, calls the new one, once, with
    the stored fact; a callback subscribed twice is called twice. *)
Theorem subscribe_is_called_last (cb : Callback) (now : datetime)
    (fact : AtomicFact) (kg : KnowledgeGraph) :
  let r := upsert_fact now fact kg in
  let r' := upsert_fact now fact (subscribe cb kg) in
  store (subscribe cb kg) = store kg /\
  returned r' = returned r /\
  store (graph_after r') = store (graph_after r) /\
  subscribers (graph_after r') = subscribers kg ++ [cb] /\
  (if returned r then
     exists stored,
       get_fact (graph_after r) (entity_type fact) (entity_id fact) (field fact)
         = Some stored /\
       let last :=
         mkDelivery (List.length (subscribers kg)) stored
           (store (graph_after r)) (call cb (store (graph_after r)) stored) in
       match escaped r with
       | None =>
           deliveries r' = deliveries r ++ [last] /\
           printed r' = printed r ++ failure_line last /\
           escaped r' = first_escape [d_outcome last]
       | Some e =>
           deliveries r' = deliveries r /\
           printed r' = printed r /\
           escaped r' = Some e
       end
   else deliveries r' = [] /\ escaped r' = None).
Proof.
  intros r r'. unfold r, r', get_fact. fold (fact_key fact).
  destruct (dict_get (fact_key fact) (facts (store kg))) as [existing|] eqn:G.
  - destruct (py_eq (value existing) (value fact)) eqn:E.
    + rewrite (upsert_fact_same now fact kg existing G E).
      rewrite (upsert_fact_same now fact (subscribe cb kg) existing G E).
      simpl. repeat split.
    + rewrite (upsert_fact_differs now fact kg existing G E).
      rewrite (upsert_fact_differs now fact (subscribe cb kg) existing G E).
      cbn [graph_after returned deliveries printed escaped store subscribers
           subscribe].
      repeat split. eexists. split; [apply dict_get_set_same|].
      unfold _notify_subscribers.
      cbn [store subscribers]. rewrite notify_from_snoc. cbv zeta.
      destruct (n_escaped (notify_from 0 _ _ (subscribers kg))) eqn:N;
        rewrite ?N; cbn [n_calls n_printed n_escaped]; auto.
  - rewrite (upsert_fact_first now fact kg G).
    rewrite (upsert_fact_first now fact (subscribe cb kg) G).
    cbn [graph_after returned deliveries printed escaped store subscribers
         subscribe].
    repeat split. eexists. split; [apply dict_get_set_same|].
    unfold _notify_subscribers.
    cbn [store subscribers]. rewrite notify_from_snoc. cbv zeta.
    destruct (n_escaped (notify_from 0 _ _ (subscribers kg))) eqn:N;
      rewrite ?N; cbn [n_calls n_printed n_escaped]; auto.
Qed.

Lemma notify_from_failure_lines (st : Store) (fact : AtomicFact)
    (subs : list Callback) :
  forall i,
    n_printed (notify_from i st fact subs) =
    failure_lines (n_calls (notify_from i st fact subs)).
Proof.
  induction subs as [|c subs IH]; intros i; [reflexivity|].
  specialize (IH (S i)). cbn [notify_from].
  destruct (call c st fact); cbn [n_calls n_printed];
    unfold failure_lines; cbn [flat_map]; unfold failure_line at 1;
    cbn [d_outcome app]; [exact IH | now rewrite IH | reflexivity].
Qed.

Lemma failure_lines_nil (ds : list Delivery) :
  failure_lines ds = [] <->
  forall d e, In d ds -> d_outcome d <> Raised e.
Proof.
  unfold failure_lines. induction ds as [|d ds IH]; cbn [flat_map].
  - split; [intros _ x e [] | reflexivity].
  - unfold failure_line at 1. destruct (d_outcome d) eqn:O; cbn [app].
    + rewrite IH. split.
      * intros H x e [<- | Hx]; [congruence | now apply H].
      * intros H x e Hx. apply H. now right.
    + split; [discriminate|]. intros H.
      now specialize (H d e (or_introl eq_refl)).
    + rewrite IH. split.
      * intros H x e' [<- | Hx]; [congruence | now apply H].
      * intros H x e' Hx. apply H. now right.
Qed.

Lemma failure_lines_length (ds : list Delivery) :
  (List.length (failure_lines ds) <= List.length ds)%nat.
Proof.
  unfold failure_lines. induction ds as [|d ds IH]; cbn [flat_map]; [simpl; lia|].
  rewrite length_app. unfold failure_line at 1.
  destruct (d_outcome d); cbn [List.length]; lia.
Qed.

Lemma failure_lines_in (ds : list Delivery) (line : string) :
  In line (failure_lines ds) <->
  exists d e,
    In d ds /\ d_outcome d = Raised e /\
    line = ("Subscriber notification failed: " ++ e)%string.
Proof.
  unfold failure_lines. rewrite in_flat_map. split.
  - intros (d & Hd & Hl). unfold failure_line in Hl.
    destruct (d_outcome d) as [|e|e] eqn:O;
      [destruct Hl | | destruct Hl].
    destruct Hl as [<- | []]. now exists d, e.
  - intros (d & e & Hd & Ho & ->). exists d. split; [exact Hd|].
    unfold failure_line. rewrite Ho. now left.
Qed.

(** A call that was made was reached: nothing escaped before it. *)
Lemma until_escape_reached (os : list Outcome) :
  forall j o,
    nth_error (until_escape os) j = Some o ->
    nth_error os j = Some o /\ first_escape (firstn j os) = None.
Proof.
  induction os as [|o' os IH]; intros j o H.
  - destruct j; discriminate.
  - cbn [until_escape] in H. destruct j as [|j].
    + destruct (escapes o'); cbn in H; inversion H; now split.
    + destruct o'; cbn [escapes nth_error firstn first_escape] in *;
        [now apply IH | now apply IH | destruct j; discriminate].
Qed.

Lemma failure_text (e e' : string) :
  ("Subscriber notification failed: " ++ e)%string =
  ("Subscriber notification failed: " ++ e')%string ->
  e = e'.
Proof. cbn. intros H. now inversion H. Qed.

(** X8. What an [upsert_fact] prints is one line for each call that
    raised an [Exception], in the order of the calls, with the text of
    the exception. A subscriber gets its line exactly when its callback
    raises an [Exception] and no callback before it let an exception
    escape; the call that lets one escape prints nothing, and is the
    last. Nothing is printed exactly when no call made raised an
    [Exception], and a [False] return prints nothing. *)
Theorem upsert_fact_prints_failures (now : datetime) (fact : AtomicFact)
    (kg : KnowledgeGraph) :
  let r := upsert_fact now fact kg in
  printed r = failure_lines (deliveries r) /\
  (printed r = [] <->
   forall d e, In d (deliveries r) -> d_outcome d <> Raised e) /\
  (List.length (printed r) <= List.length (subscribers kg))%nat /\
  (returned r = false -> printed r = [] /\ escaped r = None) /\
  (returned r = true ->
   exists stored,
     let st := store (graph_after r) in
     let os := outcomes st stored (subscribers kg) in
     get_fact (graph_after r) (entity_type fact) (entity_id fact) (field fact)
       = Some stored /\
     (forall e,
        In ("Subscriber notification failed: " ++ e)%string (printed r) <->
        exists i cb,
          nth_error (subscribers kg) i = Some cb /\
          call cb st stored = Raised e /\
          first_escape (firstn i os) = None) /\
     (forall e, escaped r = Some e ->
        exists before d,
          deliveries r = before ++ [d] /\
          d_outcome d = Escaped e /\
          printed r = failure_lines before /\
          (List.length (printed r) < List.length (subscribers kg))%nat)).
Proof.
  intros r.
  assert (Hp : printed r = failure_lines (deliveries r)).
  { unfold r. upsert_cases now fact kg; [reflexivity | |];
      unfold _notify_subscribers; apply notify_from_failure_lines. }
  assert (Hl : (List.length (deliveries r) <= List.length (subscribers kg))%nat).
  { unfold r. upsert_cases now fact kg; [simpl; lia | |];
      unfold _notify_subscribers; cbn [store subscribers];
      apply notify_from_length. }
  split; [exact Hp|]. split; [|split; [|split]].
  - rewrite Hp. apply failure_lines_nil.
  - rewrite Hp. pose proof (failure_lines_length (deliveries r)). lia.
  - intros Hr. apply upsert_fact_rejected in Hr. fold r in Hr. now rewrite Hr.
  - intros Hr. pose proof (upsert_fact_calls now fact kg Hr) as Hcalls.
    cbv zeta in Hcalls. fold r in Hcalls.
    destruct Hcalls as (stored & Hget & _ & Hds & _ & Hesc & Hos).
    exists stored. cbv zeta.
    set (st := store (graph_after r)) in *.
    set (os := outcomes st stored (subscribers kg)) in *.
    split; [exact Hget|]. split.
    + intros e. rewrite Hp, failure_lines_in. split.
      * intros (d & e' & Hd & Ho & Heq). apply failure_text in Heq. subst e'.
        apply In_nth_error in Hd. destruct Hd as [i Hi].
        assert (Hreached : nth_error (until_escape os) i = Some (Raised e)).
        { rewrite <- Hos, nth_error_map, Hi. cbn. now rewrite Ho. }
        apply until_escape_reached in Hreached. destruct Hreached as [_ Hf].
        rewrite Hds in Hi. apply notify_from_called in Hi.
        destruct Hi as (cb & Hcb & ->). cbn in Ho. now exists i, cb.
      * intros (i & cb & Hcb & Hcall & Hf).
        exists (mkDelivery i stored st (Raised e)), e.
        split; [|now split]. rewrite Hds.
        apply nth_error_In with (n := i). rewrite <- Hcall.
        now apply (notify_from_nth st stored (subscribers kg) 0 i cb).
    + intros e He. rewrite Hesc in He.
      destruct (first_escape_last os e He) as (j & Hnth & Hf & Hlen).
      assert (Hn : List.length (deliveries r) = S j)
        by now rewrite <- (length_map d_outcome), Hos.
      destruct (exists_last (l := deliveries r)) as (before & d & Hbd);
        [intros Hnil; now rewrite Hnil in Hn|].
      exists before, d.
      assert (Hb : List.length before = j).
      { rewrite Hbd, length_app in Hn. simpl in Hn. lia. }
      assert (Hd : d_outcome d = Escaped e).
      { assert (Hj : nth_error (until_escape os) j = Some (Escaped e)).
        { apply until_escape_nth; assumption. }
        rewrite <- Hos, Hbd, nth_error_map in Hj.
        rewrite nth_error_app2 in Hj by lia.
        rewrite Hb, Nat.sub_diag in Hj. cbn in Hj. congruence. }
      split; [exact Hbd|]. split; [exact Hd|].
      assert (Hpb : printed r = failure_lines before).
      { rewrite Hp, Hbd. unfold failure_lines. rewrite flat_map_app.
        cbn [flat_map]. unfold failure_line at 2. rewrite Hd.
        now rewrite !app_nil_r. }
      split; [exact Hpb|].
      rewrite Hpb. pose proof (failure_lines_length before). lia.
Qed.

(* ================================================================== *)
(** ** The range of the severity scores *)
(* ================================================================== *)

Lemma copay_bucket_range (d : Z) :
  In (copay_bucket d) [SIGNIFICANT; MODERATE; LOW].
Proof.
  unfold copay_bucket. destruct (20 <=? d); [simpl; auto|].
  destruct (5 <=? d); simpl; auto.
Qed.

Lemma copay_bucket_float_range (d : float) :
  In (copay_bucket_float d) [SIGNIFICANT; MODERATE; LOW].
Proof.
  unfold copay_bucket_float.
  destruct (float_compare_Z d 20) as [[| |]|]; simpl; auto;
    destruct (float_compare_Z d 5) as [[| |]|]; simpl; auto.
Qed.

(** The difference of the copay rule is a number. *)
Lemma copay_delta_number (fact : AtomicFact) (v : PyVal) :
  copay_delta fact = Ret v ->
  (exists z, v = VInt z) \/ (exists f, v = VFloat f).
Proof.
  unfold copay_delta. destruct (py_sub _ _) as [d|e]; [|discriminate].
  destruct d; cbn [bind py_abs]; intros [= <-]; eauto.
Qed.

(** X9. [score_importance] returns one of seven of the ten levels,
    never [TRIVIAL], [MINOR] or [NOTABLE]; below 8 unless the tier,
    shortage or warning rule decided; and it raises only in the copay
    rule, when the difference of the two values cannot be computed. *)
Theorem score_importance_range (fact : AtomicFact) :
  (forall i, score_importance fact = Ret i ->
     In i [MAJOR; HIGH; URGENT; CRITICAL; SIGNIFICANT; MODERATE; LOW] /\
     (8 <= importance_value i ->
      tier_change fact = true \/ names fact "shortage" = true \/
      names fact "warning" = true)) /\
  (forall e, score_importance fact = Raise e ->
     names fact "copay" = true /\
     tier_change fact = false /\
     copay_delta fact = Raise e).
Proof.
  unfold tier_change, names, score_importance.
  destruct (contains "tier" (lower (field fact)) &&
            py_ne (previous_value fact) (value fact)).
  { split; [intros i [= <-]; simpl; auto | discriminate]. }
  destruct (contains "pa_required" (lower (field fact))).
  { split; [intros i [= <-]; simpl; split; [auto | lia] | discriminate]. }
  destruct (contains "shortage" (lower (field fact))).
  { split; [intros i [= <-]; simpl; auto 10 | discriminate]. }
  destruct (contains "warning" (lower (field fact))).
  { split; [intros i [= <-]; simpl; auto 10 | discriminate]. }
  destruct (contains "copay" (lower (field fact))).
  2: { split; [intros i [= <-]; simpl; split; [auto 10 | lia] | discriminate]. }
  rewrite copay_rule. destruct (copay_delta fact) as [v|e] eqn:D.
  2: { split; [discriminate | intros e' [= <-]; auto]. }
  destruct (copay_delta_number fact v D) as [[z ->] | [f ->]];
    (split; [intros i [= <-] | discriminate]).
  - split.
    + pose proof (copay_bucket_range z) as H. simpl in *. intuition.
    + unfold copay_bucket. destruct (20 <=? z); [simpl; lia|].
      destruct (5 <=? z); simpl; lia.
  - split.
    + pose proof (copay_bucket_float_range f) as H. simpl in *. intuition.
    + unfold copay_bucket_float.
      destruct (float_compare_Z f 20) as [[| |]|]; simpl; try lia;
        destruct (float_compare_Z f 5) as [[| |]|]; simpl; lia.
Qed.

(* ================================================================== *)
(** ** The graph under the simulated firehose *)
(* ================================================================== *)

(** Nothing escapes from a [push_to_ws]. *)
Lemma sockets_never_escape (st : Store) (fact : AtomicFact)
    (sockets : list WebSocket) :
  first_escape (outcomes st fact (map push_to_ws sockets)) = None.
Proof. induction sockets as [|ws sockets IH]; [reflexivity | exact IH]. Qed.

(** So an [upsert_fact] on the brain's graph always returns. *)
Lemma brain_upsert_returns (now : datetime) (fact : AtomicFact)
    (b : PharmaBrain) :
  let r := upsert_fact now fact (knowledge_graph b) in
  result r = Returns (returned r).
Proof.
  unfold result.
  upsert_cases now fact (knowledge_graph b); [reflexivity | |];
    unfold _notify_subscribers, knowledge_graph; cbn [store subscribers];
    now rewrite notify_from_escaped, sockets_never_escape.
Qed.

(** A pass of the firehose of a brain, then, is the pass that
    returns. *)
Lemma simulation_pass_returns (md5_hexdigest : string -> string) (d : Draw)
    (accepts : WebSocket -> bool) (b : PharmaBrain) :
  simulation_pass md5_hexdigest d accepts b =
  if firehose_running (firehose b) then
    let r := upsert_fact (now_upsert d) (drawn_fact md5_hexdigest d)
               (knowledge_graph b) in
    let changed := returned r in
    mkPharmaBrain (store (graph_after r)) (subscribed b) (firehose b)
      (agents b)
      (if changed then push_effects accepts (subscribed b) (websocket_clients b)
       else websocket_clients b)
      (running b)
      (output b ++ printed r ++ (if changed then [firehose_line d] else []))
  else b.
Proof.
  unfold simulation_pass. destruct (firehose_running (firehose b)); auto.
  cbv zeta. now rewrite brain_upsert_returns.
Qed.

Section Firehose.

Variable md5_hexdigest : string -> string.

Lemma table_consistent_holds : table_consistent = true.
Proof. vm_compute. reflexivity. Qed.

Lemma table_one_value (u u' : Update) :
  In u possible_updates -> In u' possible_updates ->
  row_key u = row_key u' ->
  py_eq (row_value u') (row_value u) = true.
Proof.
  intros Hu Hu' Hk. pose proof table_consistent_holds as H.
  unfold table_consistent in H. rewrite forallb_forall in H.
  specialize (H u Hu). rewrite forallb_forall in H. specialize (H u' Hu').
  rewrite Hk, String.eqb_refl in H. exact H.
Qed.

Lemma drawn_fact_row (d : Draw) :
  fact_key (drawn_fact md5_hexdigest d) = row_key (chosen d) /\
  value (drawn_fact md5_hexdigest d) = row_value (chosen d) /\
  importance (drawn_fact md5_hexdigest d) = row_importance (chosen d) /\
  previous_value (drawn_fact md5_hexdigest d) = VNone.
Proof.
  unfold drawn_fact, row_key, row_value, row_importance.
  destruct (chosen d) as [[[[[[et eid] fld] v] desc] imp] src].
  repeat split.
Qed.

Lemma simulation_pass_fed (d : Draw) (accepts : WebSocket -> bool)
    (b : PharmaBrain) :
  In (chosen d) possible_updates ->
  fed_by_table (brain_store b) ->
  fed_by_table (brain_store (simulation_pass md5_hexdigest d accepts b)).
Proof.
  intros Hd (Hh & Hnd & Hrows). rewrite simulation_pass_returns.
  destruct (firehose_running (firehose b)); [|repeat split; assumption].
  cbn [brain_store].
  destruct (drawn_fact_row d) as (Hk & Hv & Hi & Hp).
  set (fact := drawn_fact md5_hexdigest d) in *.
  upsert_cases (now_upsert d) fact (knowledge_graph b).
  - repeat split; assumption.
  - exfalso. cbn [knowledge_graph store] in G.
    apply dict_get_in in G.
    destruct (Hrows _ _ G) as (u' & Hu' & Hk' & Hv' & _).
    rewrite Hv', Hv in E.
    rewrite (table_one_value (chosen d) u' Hd Hu') in E; [discriminate|].
    now rewrite <- Hk, <- Hk'.
  - cbn [knowledge_graph store] in *. repeat split.
    + exact Hh.
    + now apply dict_set_nodup.
    + intros k f Hin. apply dict_set_in in Hin.
      destruct Hin as [[-> ->] | Hin]; [|now apply Hrows].
      exists (chosen d). repeat split; auto.
Qed.

Lemma brain_after_fed (events : list Event) :
  drawn_from_table events ->
  fed_by_table (brain_store (brain_after md5_hexdigest events)).
Proof.
  unfold brain_after.
  assert (Hgen : forall b,
            fed_by_table (brain_store b) ->
            drawn_from_table events ->
            fed_by_table
              (brain_store (fold_left (happen md5_hexdigest) events b))).
  { induction events as [|e events IH]; intros b Hb Hev; simpl; auto.
    apply IH.
    - destruct e; simpl; auto.
      apply simulation_pass_fed; auto. apply (Hev d accepts). now left.
    - intros d a Hin. apply (Hev d a). now right. }
  intros Hev. apply Hgen; auto.
  unfold fed_by_table. simpl. repeat split; [constructor | tauto].
Qed.

Lemma table_has_ten_rows : List.length (map row_key possible_updates) = 10%nat.
Proof. reflexivity. Qed.

(** X10. Whatever the simulated firehose draws, and however often, the
    brain's graph never records a change. Each row of the table gives
    its key one value, so a row drawn again is no change: the history
    stays empty, the dict holds at most the ten keys of the table, each
    with the value, the importance and the missing [previous_value] of
    its row, and [get_recent_changes] returns nothing, for any window
    and minimum importance. *)
Theorem firehose_records_no_change (events : list Event) :
  drawn_from_table events ->
  let b := brain_after md5_hexdigest events in
  change_history (brain_store b) = [] /\
  (List.length (facts (brain_store b)) <= 10)%nat /\
  (forall etype eid fld f,
     get_fact (knowledge_graph b) etype eid fld = Some f ->
     exists u, In u possible_updates /\
               make_key etype eid fld = row_key u /\
               value f = row_value u /\
               importance f = row_importance u /\
               previous_value f = VNone) /\
  (forall now hours min_importance l,
     get_recent_changes now (knowledge_graph b) hours min_importance = Ret l ->
     l = []).
Proof.
  intros Hev b. destruct (brain_after_fed events Hev) as (Hh & Hnd & Hrows).
  fold b in Hh, Hnd, Hrows. split; [exact Hh|]. split; [|split].
  - rewrite <- (length_map fst), <- table_has_ten_rows.
    apply NoDup_incl_length; [exact Hnd|].
    intros k Hk. apply in_map_iff in Hk. destruct Hk as ([k' f] & <- & Hin).
    destruct (Hrows _ _ Hin) as (u & Hu & -> & _). cbn [fst].
    now apply in_map.
  - intros etype eid fld f Hget. unfold get_fact in Hget.
    apply dict_get_in in Hget. apply (Hrows _ _ Hget).
  - intros now hours mi l Hl. apply get_recent_changes_ret in Hl.
    cbn [knowledge_graph store] in Hl. now rewrite Hh in Hl.
Qed.

End Firehose.

Lemma a_morning_drawn_from_table : drawn_from_table a_morning.
Proof.
  intros d accepts Hin. unfold a_morning in Hin. simpl in Hin.
  repeat (destruct Hin as [Hin | Hin];
          [try discriminate; injection Hin as <- _; simpl; tauto|]).
  contradiction.
Qed.

Lemma firehose_records_no_change_example :
  let b := brain_after (fun s => s) a_morning in
  change_history (brain_store b) = [] /\
  (List.length (facts (brain_store b)) <= 10)%nat /\
  (forall etype eid fld f,
     get_fact (knowledge_graph b) etype eid fld = Some f ->
     exists u, In u possible_updates /\
               make_key etype eid fld = row_key u /\
               value f = row_value u /\
               importance f = row_importance u /\
               previous_value f = VNone) /\
  (forall now hours min_importance l,
     get_recent_changes now (knowledge_graph b) hours min_importance = Ret l ->
     l = []).
Proof.
  apply (firehose_records_no_change (fun s => s) a_morning).
  exact a_morning_drawn_from_table.
Defined.

(* ================================================================== *)
(** ** Sockets and the status report *)
(* ================================================================== *)

Section Subsequences2.

Context {A : Type}.

Lemma subseq_refl (l : list A) : subseq l l.
Proof. induction l; [apply subseq_nil | now apply subseq_keep]. Qed.

Lemma subseq_trans (l1 l2 l3 : list A) :
  subseq l1 l2 -> subseq l2 l3 -> subseq l1 l3.
Proof.
  intros H12 H23. revert l1 H12.
  induction H23 as [|x l2 l3 _ IH|x l2 l3 _ IH]; intros l1 H12.
  - exact H12.
  - apply subseq_skip. now apply IH.
  - inversion H12; subst.
    + apply subseq_skip. now apply IH.
    + apply subseq_keep. now apply IH.
Qed.

Lemma subseq_snoc (l1 l2 : list A) (x : A) :
  subseq l1 l2 -> subseq (l1 ++ [x]) (l2 ++ [x]).
Proof.
  induction 1; simpl;
    [apply subseq_keep, subseq_nil | now apply subseq_skip
    | now apply subseq_keep].
Qed.

End Subsequences2.

Lemma remove_first_subseq (ws : WebSocket) (l : list WebSocket) :
  subseq (remove_first ws l) l.
Proof.
  induction l as [|x l IH]; simpl; [constructor|].
  destruct (Nat.eqb x ws);
    [apply subseq_skip, subseq_refl | now apply subseq_keep].
Qed.

Lemma push_effects_subseq (accepts : WebSocket -> bool)
    (called : list WebSocket) :
  forall clients, subseq (push_effects accepts called clients) clients.
Proof.
  unfold push_effects. induction called as [|ws called IH]; intros clients.
  - apply subseq_refl.
  - simpl. eapply subseq_trans; [apply IH|].
    unfold push_effect. destruct (accepts ws);
      [apply subseq_refl | apply remove_first_subseq].
Qed.

(** Every [push_to_ws] returns, so the loop prints nothing for them. *)
Lemma notify_sockets (st : Store) (fact : AtomicFact)
    (sockets : list WebSocket) :
  forall i d,
    In d (n_calls (notify_from i st fact (map push_to_ws sockets))) ->
    d_outcome d = Returned.
Proof.
  intros i d Hd. apply In_nth_error in Hd. destruct Hd as [j Hj].
  apply notify_from_called in Hj. destruct Hj as (cb & Hcb & ->).
  rewrite nth_error_map in Hcb.
  destruct (nth_error sockets j); [|discriminate].
  cbn in Hcb. inversion Hcb; subst. reflexivity.
Qed.

Section Brain.

Variable md5_hexdigest : string -> string.

Lemma happen_subscribed (e : Event) (b : PharmaBrain) :
  subscribed (happen md5_hexdigest b e) = subscribed b ++ connected [e].
Proof.
  destruct e; simpl; try reflexivity; try (now rewrite app_nil_r).
  rewrite simulation_pass_returns.
  destruct (firehose_running (firehose b)); simpl; now rewrite app_nil_r.
Qed.

Lemma happen_clients (e : Event) (b : PharmaBrain) :
  subseq (websocket_clients b) (subscribed b) ->
  subseq (websocket_clients (happen md5_hexdigest b e))
         (subscribed (happen md5_hexdigest b e)).
Proof.
  intros H. destruct e; simpl; auto.
  - now apply subseq_snoc.
  - rewrite simulation_pass_returns.
    destruct (firehose_running (firehose b)); simpl; auto.
    destruct (returned _); auto.
    eapply subseq_trans; [apply push_effects_subseq | exact H].
Qed.

Lemma run_subscribed (events : list Event) :
  forall b,
    subscribed (fold_left (happen md5_hexdigest) events b) =
    subscribed b ++ connected events /\
    (subseq (websocket_clients b) (subscribed b) ->
     subseq (websocket_clients (fold_left (happen md5_hexdigest) events b))
            (subscribed (fold_left (happen md5_hexdigest) events b))).
Proof.
  induction events as [|e events IH]; intros b; simpl.
  - rewrite app_nil_r. auto.
  - destruct (IH (happen md5_hexdigest b e)) as [Hs Hc]. split.
    + rewrite Hs, happen_subscribed, <- app_assoc. f_equal.
      now destruct e.
    + intros H. apply Hc. now apply happen_clients.
Qed.

(** X11. Nothing ever unsubscribes a socket. After any run of events
    the graph's subscribers are the callbacks of all the sockets that
    ever connected, in order, while [websocket_clients] holds some of
    them only: a socket whose push failed leaves [websocket_clients]
    and stays subscribed. Every admitted fact is pushed to every socket
    that ever connected, each callback returns, nothing is printed of a
    failure, and no exception leaves [upsert_fact]. *)
Theorem sockets_stay_subscribed (events : list Event) :
  let b := brain_after md5_hexdigest events in
  subscribed b = connected events /\
  subscribers (knowledge_graph b) = map push_to_ws (connected events) /\
  subseq (websocket_clients b) (connected events) /\
  (List.length (websocket_clients b) <= List.length (connected events))%nat /\
  forall now fact,
    let r := upsert_fact now fact (knowledge_graph b) in
    returned r = true ->
    List.length (deliveries r) = List.length (connected events) /\
    (forall d, In d (deliveries r) -> d_outcome d = Returned) /\
    printed r = [] /\
    escaped r = None.
Proof.
  intros b. destruct (run_subscribed events new_brain) as [Hs Hc].
  fold (brain_after md5_hexdigest events) in Hs, Hc. fold b in Hs, Hc.
  simpl in Hs. specialize (Hc (subseq_nil)).
  rewrite Hs in Hc.
  split; [exact Hs|]. split; [cbn [knowledge_graph subscribers]; now rewrite Hs|].
  split; [exact Hc|]. split; [now apply subseq_length|].
  intros now fact r Hr.
  destruct (upsert_fact_admitted now fact (knowledge_graph b) Hr)
    as (stored & _ & _ & _ & Hsubs & Hds & Hout & Hesc).
  fold r in Hsubs, Hds, Hout, Hesc.
  unfold _notify_subscribers in Hds, Hout, Hesc.
  rewrite Hsubs in Hds, Hout, Hesc.
  cbn [knowledge_graph subscribers] in Hds, Hout, Hesc.
  rewrite Hs in Hds, Hout, Hesc.
  assert (Hret : forall d, In d (deliveries r) -> d_outcome d = Returned).
  { intros d Hd. rewrite Hds in Hd. now apply notify_sockets in Hd. }
  split; [|split; [exact Hret|split]].
  - rewrite Hds, notify_from_all by apply sockets_never_escape.
    apply length_map.
  - rewrite Hout, notify_from_failure_lines, <- Hds.
    apply failure_lines_nil. intros d e Hd. rewrite (Hret d Hd). discriminate.
  - rewrite Hesc, notify_from_escaped. apply sockets_never_escape.
Qed.

(** In the sample run socket 7 is dropped from [websocket_clients] at
    the first push and is still called at the next admission. *)
Example socket_7_stays_subscribed :
  let b := brain_after md5_hexdigest a_morning in
  websocket_clients b = [8%nat] /\
  subscribed b = [7%nat; 8%nat] /\
  map fst (facts (brain_store b)) =
    ["coverage:ozempic:aetna_comm:formulary_tier"%string;
     "drug:amoxicillin:shortage_status"%string] /\
  List.length (output b) = 5%nat.
Proof. repeat split. Qed.

End Brain.

Section Status.

Variable md5_hexdigest : string -> string.

(** No step of an agent touches its name or its count of updates, and
    none lowers its count of checks. *)
Lemma agent_steps_keep (step : AutonomousAgent -> AutonomousAgent) :
  In step [agent_start; agent_stop; agent_begin; agent_check] ->
  forall a,
    agent_name (step a) = agent_name a /\
    updates_found (step a) = updates_found a /\
    checks a <= checks (step a).
Proof.
  intros [<- | [<- | [<- | [<- | []]]]] a.
  - cbn. repeat split. lia.
  - cbn. repeat split. lia.
  - unfold agent_begin. destruct (loops_created a); cbn; repeat split; lia.
  - unfold agent_check. destruct (loops_sleeping a); cbn; repeat split; lia.
Qed.

Lemma agents_step_fixtures (step : AutonomousAgent -> AutonomousAgent)
    (i : nat) :
  In step [agent_start; agent_stop; agent_begin; agent_check] ->
  forall l,
    map agent_name (agents_step step i l) = map agent_name l /\
    ((forall a, In a l -> updates_found a = 0 /\ 0 <= checks a) ->
     forall a, In a (agents_step step i l) ->
       updates_found a = 0 /\ 0 <= checks a).
Proof.
  intros Hstep. induction i as [|i IH]; intros [|a l]; simpl;
    try (split; [reflexivity | intros _ x []]).
  - destruct (agent_steps_keep step Hstep a) as (Hn & Hu & Hc). split.
    + now rewrite Hn.
    + intros H x [<- | Hx]; [|apply H; right; assumption].
      destruct (H a (or_introl eq_refl)) as [Hu0 Hc0].
      rewrite Hu. split; [exact Hu0 | lia].
  - destruct (IH l) as [Hn Hu]. split; [now rewrite Hn|].
    intros H x [<- | Hx]; [apply H; left; reflexivity|].
    apply Hu; auto.
Qed.

Lemma map_step_fixtures (step : AutonomousAgent -> AutonomousAgent)
    (l : list AutonomousAgent) :
  In step [agent_start; agent_stop; agent_begin; agent_check] ->
  map agent_name (map step l) = map agent_name l /\
  ((forall a, In a l -> updates_found a = 0 /\ 0 <= checks a) ->
   forall a, In a (map step l) -> updates_found a = 0 /\ 0 <= checks a).
Proof.
  intros Hstep. split.
  - rewrite map_map. apply map_ext. intros a.
    now destruct (agent_steps_keep step Hstep a).
  - intros H a Ha. apply in_map_iff in Ha. destruct Ha as (x & <- & Hx).
    destruct (agent_steps_keep step Hstep x) as (_ & Hu & Hc).
    destruct (H x Hx) as [Hu0 Hc0]. rewrite Hu. split; [exact Hu0 | lia].
Qed.

Lemma happen_fixtures (e : Event) (b : PharmaBrain) :
  brain_fixtures b -> brain_fixtures (happen md5_hexdigest b e).
Proof.
  intros (Hs & Hn & Hu). unfold brain_fixtures. destruct e; simpl.
  - destruct (map_step_fixtures agent_start (agents b)) as [Hn' Hu'];
      [simpl; tauto|].
    rewrite Hn'. auto.
  - destruct (map_step_fixtures agent_stop (agents b)) as [Hn' Hu'];
      [simpl; tauto|].
    rewrite Hn'. auto.
  - auto.
  - rewrite simulation_pass_returns. destruct (firehose_running (firehose b));
      simpl; auto.
  - destruct (agents_step_fixtures agent_begin i) with (l := agents b)
      as [Hn' Hu']; [simpl; tauto|].
    rewrite Hn'. auto.
  - destruct (agents_step_fixtures agent_check i) with (l := agents b)
      as [Hn' Hu']; [simpl; tauto|].
    rewrite Hn'. auto.
Qed.

Lemma happen_running (e : Event) (b : PharmaBrain) :
  running (happen md5_hexdigest b e) =
  match e with Start => true | Stop => false | _ => running b end.
Proof.
  destruct e; simpl; auto. rewrite simulation_pass_returns.
  now destruct (firehose_running (firehose b)).
Qed.

Lemma run_fixtures (events : list Event) :
  forall b,
    brain_fixtures b ->
    brain_fixtures (fold_left (happen md5_hexdigest) events b) /\
    running (fold_left (happen md5_hexdigest) events b) =
    fold_left
      (fun r e => match e with Start => true | Stop => false | _ => r end)
      events (running b).
Proof.
  induction events as [|e events IH]; intros b Hb; simpl; auto.
  destruct (IH (happen md5_hexdigest b e) (happen_fixtures e b Hb)) as [H1 H2].
  split; [exact H1|]. now rewrite H2, happen_running.
Qed.

(** A window of a day exists once the clock is a day past the start of
    the calendar. *)
Lemma get_recent_changes_day (now : datetime) (kg : KnowledgeGraph)
    (min_importance : Z) :
  24 * hour <= now < datetime_end + 24 * hour ->
  exists l, get_recent_changes now kg 24 min_importance = Ret l.
Proof.
  unfold hour. intros H. unfold get_recent_changes, timedelta_hours.
  change (Z.abs (24 * 3600000000 / 86400000000) <=? 999999999) with true.
  cbn [bind]. unfold datetime_sub.
  replace ((0 <=? now - 24 * 3600000000) &&
           (now - 24 * 3600000000 <? datetime_end)) with true
    by (symmetry; apply andb_true_iff; split;
        [apply Z.leb_le | apply Z.ltb_lt]; lia).
  cbn [bind]. eexists. reflexivity.
Qed.

(** X12. What [get_system_status] can report of a brain fed by its
    firehose, whatever happened to it: it returns whenever the clock is
    a day past the start of the calendar; the status follows the last
    [start] or [stop]; there are at most ten facts and no recent change;
    22 sources are active; the five agents are listed by name, each with
    0 updates and a count of checks that is not negative; and the count
    of socket clients is at most the number of sockets that connected. *)
Theorem get_system_status_report (events : list Event) (now : datetime) :
  drawn_from_table events ->
  24 * hour <= now < datetime_end + 24 * hour ->
  exists s,
    get_system_status now (brain_after md5_hexdigest events) = Ret s /\
    status s = (if running_after events then "online" else "offline")%string /\
    (total_facts s <= 10)%nat /\
    recent_changes_24h s = 0%nat /\
    sources_active s = 22%nat /\
    map (fun row => (fst (fst row), snd row)) (agent_rows s) =
      [("PA Criteria Watcher", 0); ("Price Hunter", 0);
       ("Shortage Stalker", 0); ("Label Ninja", 0);
       ("Medicaid Spider", 0)]%string /\
    (forall row, In row (agent_rows s) -> 0 <= snd (fst row)) /\
    (status_websocket_clients s <= List.length (connected events))%nat.
Proof.
  intros Hev Hnow. set (b := brain_after md5_hexdigest events).
  destruct (get_recent_changes_day now (knowledge_graph b) 1 Hnow)
    as (l & Hl).
  destruct (brain_after_fed md5_hexdigest events Hev) as (Hh & Hnd & Hrows).
  fold b in Hh, Hnd, Hrows.
  assert (Hnil : l = []).
  { apply get_recent_changes_ret in Hl. cbn [knowledge_graph store] in Hl.
    now rewrite Hh in Hl. }
  destruct (run_fixtures events new_brain) as [(Hs & Hn & Hu) Hr].
  { unfold brain_fixtures. simpl. repeat split; auto;
      repeat (destruct H as [<- | H]; [simpl; lia|]); contradiction. }
  fold (brain_after md5_hexdigest events) in Hs, Hn, Hu, Hr. fold b in Hs, Hn, Hu, Hr.
  unfold get_system_status. fold b. rewrite Hl. cbn [bind].
  eexists. split; [reflexivity|]. cbn [status total_facts recent_changes_24h
    sources_active agent_rows status_websocket_clients].
  repeat split.
  - now rewrite Hr.
  - rewrite <- (length_map fst), <- table_has_ten_rows.
    apply NoDup_incl_length; [exact Hnd|].
    intros k Hk. apply in_map_iff in Hk. destruct Hk as ([k' f] & <- & Hin).
    destruct (Hrows _ _ Hin) as (u & Hu' & -> & _). cbn [fst].
    now apply in_map.
  - now rewrite Hnil.
  - now rewrite Hs.
  - rewrite map_map. cbn [fst snd].
    assert (Hz : forall l0 : list AutonomousAgent,
              (forall a, In a l0 -> updates_found a = 0) ->
              map (fun a => (agent_name a, updates_found a)) l0 =
              map (fun n => (n, 0)) (map agent_name l0)).
    { induction l0 as [|a l0 IH]; simpl; intros H; [reflexivity|].
      rewrite (H a (or_introl eq_refl)), IH; auto. }
    rewrite Hz by (intros a Ha; now apply Hu). now rewrite Hn.
  - intros row Hrow. apply in_map_iff in Hrow.
    destruct Hrow as (a & <- & Ha). simpl. now apply Hu.
  - destruct (run_subscribed md5_hexdigest events new_brain) as [Hsub Hc].
    fold (brain_after md5_hexdigest events) in Hsub, Hc. fold b in Hsub, Hc.
    simpl in Hsub. specialize (Hc subseq_nil). rewrite Hsub in Hc.
    now apply subseq_length.
Qed.

End Status.

Lemma get_system_status_report_example :
  exists s,
    get_system_status (new_year + 4 * hour) (brain_after (fun s => s) a_morning)
      = Ret s /\
    status s = "online"%string /\
    (total_facts s <= 10)%nat /\
    recent_changes_24h s = 0%nat /\
    sources_active s = 22%nat /\
    map (fun row => (fst (fst row), snd row)) (agent_rows s) =
      [("PA Criteria Watcher", 0); ("Price Hunter", 0);
       ("Shortage Stalker", 0); ("Label Ninja", 0);
       ("Medicaid Spider", 0)]%string /\
    (forall row, In row (agent_rows s) -> 0 <= snd (fst row)) /\
    (status_websocket_clients s <= 2)%nat.
Proof.
  apply (get_system_status_report (fun s => s) a_morning (new_year + 4 * hour)).
  - exact a_morning_drawn_from_table.
  - vm_compute. split; [discriminate | reflexivity].
Defined.

(* ================================================================== *)
(** ** The endpoint of recent updates *)
(* ================================================================== *)

Lemma sorted_app_le (l1 l2 : list AtomicFact) :
  oldest_first (l1 ++ l2) ->
  forall a b, In a l1 -> In b l2 -> updated_at a <= updated_at b.
Proof.
  unfold oldest_first. induction l1 as [|x l1 IH]; simpl; intros Hs a b Ha Hb.
  - contradiction.
  - inversion Hs as [|? ? Hrest Hall]; subst. destruct Ha as [<- | Ha].
    + rewrite Forall_forall in Hall. apply Hall. apply in_or_app. now right.
    + now apply IH.
Qed.

(** X13. The endpoint counts every change of the window with importance
    3 or more, and returns the first fifty of them as dicts: when the
    history is oldest first, the fifty returned are the oldest, and
    every change left out is at least as recent as every change
    returned. *)
Theorem get_recent_updates_keeps_oldest (isoformat : datetime -> string)
    (now : datetime) (b : PharmaBrain) (hours : Z) (r : RecentUpdates) :
  oldest_first (change_history (brain_store b)) ->
  get_recent_updates isoformat now b hours = Ret r ->
  exists changes,
    get_recent_changes now (knowledge_graph b) hours 3 = Ret changes /\
    count r = List.length changes /\
    hours_asked r = hours /\
    updates r = map (to_dict isoformat) (firstn 50 changes) /\
    List.length (updates r) = Nat.min 50 (count r) /\
    forall kept left_out,
      In kept (firstn 50 changes) -> In left_out (skipn 50 changes) ->
      updated_at kept <= updated_at left_out.
Proof.
  intros Hs Hr. unfold get_recent_updates in Hr.
  destruct (get_recent_changes now (knowledge_graph b) hours 3)
    as [changes|e] eqn:Hc; [|discriminate].
  cbn [bind] in Hr.
  assert (Hr' : r = mkRecentUpdates (List.length changes) hours
                      (map (to_dict isoformat) (firstn 50 changes)))
    by congruence.
  rewrite Hr'. exists changes. cbn [count hours_asked updates].
  split; [reflexivity|]. split; [reflexivity|]. split; [reflexivity|].
  split; [reflexivity|]. split.
  - rewrite length_map. apply length_firstn.
  - apply sorted_app_le. rewrite firstn_skipn.
    apply get_recent_changes_ret in Hc. subst changes.
    eapply subseq_sorted; [apply filter_subseq | exact Hs].
Qed.

Lemma get_recent_updates_keeps_oldest_example :
  exists changes,
    get_recent_changes new_year (knowledge_graph tiers_brain) 24 3 = Ret changes /\
    2%nat = List.length changes /\
    24 = 24 /\
    map (to_dict (fun _ => EmptyString))
      [set_updated_at (new_year - 2 * hour) (set_previous_value (VInt 3) (tier 2));
       set_updated_at (new_year - 1 * hour) (set_previous_value (VInt 2) (tier 1))]
    = map (to_dict (fun _ => EmptyString)) (firstn 50 changes) /\
    2%nat = Nat.min 50 2 /\
    forall kept left_out,
      In kept (firstn 50 changes) -> In left_out (skipn 50 changes) ->
      updated_at kept <= updated_at left_out.
Proof.
  apply (get_recent_updates_keeps_oldest (fun _ => EmptyString) new_year
           tiers_brain 24
           (mkRecentUpdates 2 24
              (map (to_dict (fun _ => EmptyString))
                 [set_updated_at (new_year - 2 * hour)
                    (set_previous_value (VInt 3) (tier 2));
                  set_updated_at (new_year - 1 * hour)
                    (set_previous_value (VInt 2) (tier 1))]))).
  - vm_compute. repeat constructor; discriminate.
  - vm_compute. reflexivity.
Defined.

(* ================================================================== *)
(** ** What the firehose announces *)
(* ================================================================== *)

Section Announcements.

Variable md5_hexdigest : string -> string.

Lemma sockets_print_nothing (st : Store) (fact : AtomicFact)
    (sockets : list WebSocket) :
  n_printed (notify_from 0 st fact (map push_to_ws sockets)) = [].
Proof.
  rewrite notify_from_failure_lines. apply failure_lines_nil.
  intros d e Hd. apply notify_sockets in Hd. rewrite Hd. discriminate.
Qed.

Lemma happen_output (e : Event) (b : PharmaBrain) :
  fed_by_table (brain_store b) ->
  drawn_from_table [e] ->
  (List.length (output (happen md5_hexdigest b e)) +
   List.length (facts (brain_store b)) =
   List.length (output b) + switch_lines [e] +
   List.length (facts (brain_store (happen md5_hexdigest b e))))%nat.
Proof.
  intros (Hh & Hnd & Hrows) Hev. destruct e; simpl.
  - rewrite length_app. simpl. lia.
  - rewrite length_app. simpl. lia.
  - lia.
  - assert (Hd : In (chosen d) possible_updates)
      by (apply (Hev d accepts); now left).
    rewrite simulation_pass_returns.
    destruct (firehose_running (firehose b)); [|lia].
    cbn [output brain_store].
    destruct (drawn_fact_row md5_hexdigest d) as (Hk & Hv & _).
    set (fact := drawn_fact md5_hexdigest d) in *.
    upsert_cases (now_upsert d) fact (knowledge_graph b).
    + rewrite !length_app. simpl. lia.
    + exfalso. cbn [knowledge_graph store] in G. apply dict_get_in in G.
      destruct (Hrows _ _ G) as (u' & Hu' & Hk' & Hv' & _).
      rewrite Hv', Hv in E.
      rewrite (table_one_value (chosen d) u' Hd Hu') in E; [discriminate|].
      now rewrite <- Hk, <- Hk'.
    + cbn [knowledge_graph store] in G |- *.
      unfold _notify_subscribers, knowledge_graph. cbn [store subscribers].
      rewrite sockets_print_nothing, dict_set_new by exact G.
      rewrite !length_app. simpl. lia.
  - lia.
  - lia.
Qed.

Lemma run_output (events : list Event) :
  forall b,
    fed_by_table (brain_store b) ->
    drawn_from_table events ->
    (List.length (output (fold_left (happen md5_hexdigest) events b)) +
     List.length (facts (brain_store b)) =
     List.length (output b) + switch_lines events +
     List.length
       (facts (brain_store (fold_left (happen md5_hexdigest) events b))))%nat.
Proof.
  induction events as [|e events IH]; intros b Hb Hev; [simpl; lia|].
  cbn [fold_left].
  assert (He : drawn_from_table [e]).
  { intros d a [Hin | []]. apply (Hev d a). now left. }
  assert (Hrest : drawn_from_table events).
  { intros d a Hin. apply (Hev d a). now right. }
  assert (Hb' : fed_by_table (brain_store (happen md5_hexdigest b e))).
  { destruct e; simpl; auto. apply simulation_pass_fed; auto.
    apply (Hev d accepts). now left. }
  pose proof (IH _ Hb' Hrest) as H1.
  pose proof (happen_output e b Hb He) as H2.
  assert (Hsw : switch_lines (e :: events) =
                (switch_lines [e] + switch_lines events)%nat)
    by (destruct e; simpl; lia).
  rewrite Hsw. lia.
Qed.

(** X14. The firehose announces each key once. Apart from the three
    lines of each [start] and the one of each [stop], the brain has
    printed exactly one line for each fact its graph holds, so at most
    ten lines of the firehose ever: a row drawn again stores nothing,
    prints nothing and is pushed to nobody. *)
Theorem firehose_announces_once (events : list Event) :
  drawn_from_table events ->
  let b := brain_after md5_hexdigest events in
  List.length (output b) =
    (switch_lines events + List.length (facts (brain_store b)))%nat /\
  (List.length (output b) <= switch_lines events + 10)%nat /\
  forall d accepts,
    In (chosen d) possible_updates ->
    get_fact (knowledge_graph b)
      (entity_type (drawn_fact md5_hexdigest d))
      (entity_id (drawn_fact md5_hexdigest d))
      (field (drawn_fact md5_hexdigest d)) <> None ->
    firehose_running (firehose b) = true ->
    simulation_pass md5_hexdigest d accepts b = b.
Proof.
  intros Hev b.
  pose proof (brain_after_fed md5_hexdigest events Hev) as Hfed. fold b in Hfed.
  assert (Hlen : List.length (output b) =
                 (switch_lines events + List.length (facts (brain_store b)))%nat).
  { pose proof (run_output events new_brain) as H. simpl in H.
    fold (brain_after md5_hexdigest events) in H. fold b in H.
    rewrite Nat.add_0_r in H. apply H; auto.
    unfold fed_by_table. simpl. repeat split; [constructor | tauto]. }
  split; [exact Hlen|]. split.
  - destruct Hfed as (_ & Hnd & Hrows). rewrite Hlen.
    apply Nat.add_le_mono_l.
    rewrite <- (length_map fst), <- table_has_ten_rows.
    apply NoDup_incl_length; [exact Hnd|].
    intros k Hk. apply in_map_iff in Hk. destruct Hk as ([k' f] & <- & Hin).
    destruct (Hrows _ _ Hin) as (u & Hu & -> & _). cbn [fst].
    now apply in_map.
  - intros d accepts Hd Hheld Hrun.
    rewrite simulation_pass_returns, Hrun.
    destruct Hfed as (_ & _ & Hrows).
    destruct (drawn_fact_row md5_hexdigest d) as (Hk & Hv & _).
    unfold get_fact in Hheld.
    fold (fact_key (drawn_fact md5_hexdigest d)) in Hheld.
    cbn [knowledge_graph store] in Hheld.
    set (fact := drawn_fact md5_hexdigest d) in *.
    destruct (dict_get (fact_key fact) (facts (brain_store b)))
      as [existing|] eqn:G; [|congruence].
    assert (E : py_eq (value existing) (value fact) = true).
    { pose proof (dict_get_in _ _ _ G) as Hin.
      destruct (Hrows _ _ Hin) as (u' & Hu' & Hk' & Hv' & _).
      rewrite Hv', Hv. apply (table_one_value (chosen d) u' Hd Hu').
      now rewrite <- Hk, <- Hk'. }
    rewrite (upsert_fact_same (now_upsert d) fact (knowledge_graph b)
               existing G E).
    cbn [graph_after returned printed knowledge_graph store].
    rewrite !app_nil_r. now destruct b.
Qed.

End Announcements.

Lemma firehose_announces_once_example :
  let b := brain_after (fun s => s) a_morning in
  List.length (output b) =
    (switch_lines a_morning + List.length (facts (brain_store b)))%nat /\
  (List.length (output b) <= switch_lines a_morning + 10)%nat /\
  forall d accepts,
    In (chosen d) possible_updates ->
    get_fact (knowledge_graph b)
      (entity_type (drawn_fact (fun s => s) d))
      (entity_id (drawn_fact (fun s => s) d))
      (field (drawn_fact (fun s => s) d)) <> None ->
    firehose_running (firehose b) = true ->
    simulation_pass (fun s => s) d accepts b = b.
Proof.
  apply (firehose_announces_once (fun s => s) a_morning).
  exact a_morning_drawn_from_table.
Defined.

(* ================================================================== *)
(** ** The loops of the agents *)
(* ================================================================== *)

Section Agents.

Variable md5_hexdigest : string -> string.

Lemma agents_step_nth (step : AutonomousAgent -> AutonomousAgent) (j : nat) :
  forall l i,
    nth_error (agents_step step j l) i =
    option_map (fun a => if Nat.eqb j i then step a else a) (nth_error l i).
Proof.
  induction j as [|j IH]; intros [|a l] i; cbn [agents_step].
  - now destruct i.
  - destruct i as [|i]; [reflexivity|]. cbn [nth_error Nat.eqb].
    destruct (nth_error l i); reflexivity.
  - now destruct i.
  - destruct i as [|i]; [reflexivity|]. cbn [nth_error Nat.eqb]. apply IH.
Qed.

(** An event acts on each agent by itself. *)
Lemma happen_agent (i : nat) (e : Event) (b : PharmaBrain) :
  nth_error (agents (happen md5_hexdigest b e)) i =
  option_map (fun a => agent_happen i a e) (nth_error (agents b) i).
Proof.
  destruct e; cbn [happen agent_happen].
  - cbn [start agents]. apply nth_error_map.
  - cbn [stop agents]. apply nth_error_map.
  - cbn [subscribe_websocket agents]. now destruct (nth_error (agents b) i).
  - rewrite simulation_pass_returns.
    destruct (firehose_running (firehose b)); cbn [agents];
      now destruct (nth_error (agents b) i).
  - cbn [agent_begins agents]. apply agents_step_nth.
  - cbn [agent_pass agents]. apply agents_step_nth.
Qed.

Lemma run_agent (i : nat) (events : list Event) :
  forall b,
    nth_error (agents (fold_left (happen md5_hexdigest) events b)) i =
    option_map (fun a => fold_left (agent_happen i) events a)
      (nth_error (agents b) i).
Proof.
  induction events as [|e events IH]; intros b; cbn [fold_left].
  - now destruct (nth_error (agents b) i).
  - rewrite IH, happen_agent. now destruct (nth_error (agents b) i).
Qed.

(** While the agent is stopped, a sleep that ends is a check and the
    end of its loop, and a loop that begins ends at once. *)
Lemma stopped_agent (i : nat) (tail : list Event) :
  forall a,
    no_start tail = true ->
    agent_running a = false ->
    let a' := fold_left (agent_happen i) tail a in
    agent_running a' = false /\
    checks a' + Z.of_nat (loops_sleeping a') =
      checks a + Z.of_nat (loops_sleeping a) /\
    checks a <= checks a' /\
    (loops_created a' <= loops_created a)%nat.
Proof.
  induction tail as [|e tail IH]; intros a Hns Hr; cbn [fold_left].
  - repeat split; auto; lia.
  - cbn [no_start forallb] in Hns. apply andb_prop in Hns.
    destruct Hns as [He Hns]. fold (no_start tail) in Hns.
    assert (Hstep : agent_running (agent_happen i a e) = false /\
              checks (agent_happen i a e) +
                Z.of_nat (loops_sleeping (agent_happen i a e)) =
                checks a + Z.of_nat (loops_sleeping a) /\
              checks a <= checks (agent_happen i a e) /\
              (loops_created (agent_happen i a e) <= loops_created a)%nat).
    { destruct e as [| |ws|d acc|j|j]; cbn [agent_happen]; try discriminate;
        try (cbn [agent_stop agent_running checks loops_sleeping loops_created];
             repeat split; auto; lia).
      - destruct (Nat.eqb j i); [|repeat split; auto; lia].
        unfold agent_begin. destruct (loops_created a) eqn:C;
          cbn [agent_running checks loops_sleeping loops_created];
          rewrite ?C, ?Hr; repeat split; auto; lia.
      - destruct (Nat.eqb j i); [|repeat split; auto; lia].
        unfold agent_check. destruct (loops_sleeping a) eqn:S;
          cbn [agent_running checks loops_sleeping loops_created];
          rewrite ?S, ?Hr; repeat split; auto; lia. }
    destruct Hstep as (Hr1 & Hsum1 & Hc1 & Hl1).
    destruct (IH (agent_happen i a e) Hns Hr1) as (Hr2 & Hsum2 & Hc2 & Hl2).
    repeat split; auto; lia.
Qed.

(** Each start makes one loop for the agent, and each check is the end
    of a sleep. *)
Lemma agent_counts (i : nat) (events : list Event) :
  forall a,
    let a' := fold_left (agent_happen i) events a in
    (loops_created a' + loops_sleeping a' <=
     loops_created a + loops_sleeping a + count_starts events)%nat /\
    checks a <= checks a' <= checks a + Z.of_nat (count_passes i events) /\
    updates_found a' = updates_found a.
Proof.
  induction events as [|e events IH]; intros a; cbn [fold_left].
  - unfold count_starts, count_passes. cbn. repeat split; lia.
  - destruct (IH (agent_happen i a e)) as (Hl & Hc & Hu).
    assert (Hstep :
      (loops_created (agent_happen i a e) + loops_sleeping (agent_happen i a e)
       <= loops_created a + loops_sleeping a + count_starts [e])%nat /\
      checks a <= checks (agent_happen i a e)
        <= checks a + Z.of_nat (count_passes i [e]) /\
      updates_found (agent_happen i a e) = updates_found a).
    { unfold count_starts, count_passes.
      destruct e as [| |ws|d acc|j|j]; cbn [agent_happen filter List.length];
        try (cbn; repeat split; lia).
      - destruct (Nat.eqb j i); [|cbn; repeat split; lia].
        unfold agent_begin. destruct (loops_created a) eqn:C;
          cbn [agent_running checks loops_sleeping loops_created updates_found
               List.length];
          rewrite ?C; destruct (agent_running a); repeat split; lia.
      - destruct (Nat.eqb j i); [|cbn; repeat split; lia].
        unfold agent_check. destruct (loops_sleeping a) eqn:S;
          cbn [agent_running checks loops_sleeping loops_created updates_found
               List.length];
          rewrite ?S; destruct (agent_running a); repeat split; lia. }
    assert (Hs : count_starts (e :: events) =
                 (count_starts [e] + count_starts events)%nat)
      by (unfold count_starts; destruct e; reflexivity).
    assert (Hp : count_passes i (e :: events) =
                 (count_passes i [e] + count_passes i events)%nat).
    { unfold count_passes. destruct e as [| |ws|d acc|j|j]; try reflexivity.
      cbn [filter]. now destruct (Nat.eqb j i). }
    rewrite Hs, Hp. destruct Hstep as (Hl1 & Hc1 & Hu1).
    repeat split; lia.
Qed.

(** X15. The loops of the agents. The brain keeps its five agents; each
    [start] makes one loop for each, and an agent has checked at most
    once for each sleep of its loops that ended. [stop] ends no loop:
    after it, and until the next [start], every loop that was asleep
    makes one more check when its sleep ends, and only then ends, so
    the checks reported go on growing after [stop], by at most the
    number of loops that were asleep. *)
Theorem agent_checks_after_stop (events tail : list Event) (i : nat)
    (a : AutonomousAgent) :
  nth_error (agents (brain_after md5_hexdigest (events ++ [Stop]))) i
    = Some a ->
  no_start tail = true ->
  exists a',
    nth_error (agents (brain_after md5_hexdigest (events ++ Stop :: tail))) i
      = Some a' /\
    agent_name a' = agent_name a /\
    agent_running a = false /\
    agent_running a' = false /\
    checks a' + Z.of_nat (loops_sleeping a') =
      checks a + Z.of_nat (loops_sleeping a) /\
    checks a <= checks a' <= checks a + Z.of_nat (loops_sleeping a) /\
    (loops_created a + loops_sleeping a <= count_starts events)%nat /\
    0 <= checks a <= Z.of_nat (count_passes i events).
Proof.
  intros Ha Hns. unfold brain_after in *.
  rewrite fold_left_app in Ha |- *. cbn [fold_left] in Ha |- *.
  set (b := fold_left (happen md5_hexdigest) events new_brain) in *.
  rewrite run_agent. rewrite Ha. cbn [option_map].
  exists (fold_left (agent_happen i) tail a). split; [reflexivity|].
  assert (Hb : exists a0,
            nth_error (agents new_brain) i = Some a0 /\
            a = agent_stop (fold_left (agent_happen i) events a0)).
  { rewrite happen_agent in Ha. unfold b in Ha. rewrite run_agent in Ha.
    destruct (nth_error (agents new_brain) i) as [a0|]; [|discriminate].
    cbn in Ha. inversion Ha. now exists a0. }
  destruct Hb as (a0 & Ha0 & Ea).
  assert (Hr : agent_running a = false) by now rewrite Ea.
  destruct (stopped_agent i tail a Hns Hr) as (Hr' & Hsum & Hc & _).
  cbv zeta in Hr', Hsum, Hc.
  destruct (agent_counts i events a0) as (Hl0 & Hc0 & _). cbv zeta in Hl0, Hc0.
  assert (Hnew : loops_created a0 = 0%nat /\ loops_sleeping a0 = 0%nat /\
                 checks a0 = 0).
  { apply nth_error_In in Ha0. cbn in Ha0.
    destruct Ha0 as [<- | [<- | [<- | [<- | [<- | []]]]]]; now cbn. }
  destruct Hnew as (Hcr & Hsl & Hch).
  assert (Hname : agent_name (fold_left (agent_happen i) tail a) = agent_name a).
  { clear. revert a. induction tail as [|e tail IH]; intros a; [reflexivity|].
    cbn [fold_left]. rewrite IH.
    destruct e as [| |ws|d acc|j|j]; cbn [agent_happen]; try reflexivity.
    - destruct (Nat.eqb j i); [|reflexivity]. unfold agent_begin.
      now destruct (loops_created a).
    - destruct (Nat.eqb j i); [|reflexivity]. unfold agent_check.
      now destruct (loops_sleeping a). }
  split; [exact Hname|]. split; [exact Hr|]. split; [exact Hr'|].
  split; [exact Hsum|]. split; [lia|].
  rewrite Ea. cbn [agent_stop loops_created loops_sleeping checks].
  split; lia.
Qed.

End Agents.

Lemma agent_checks_after_stop_example :
  exists a',
    nth_error
      (agents (brain_after (fun s => s)
                 ([Start; AgentBegin 1] ++ Stop :: [AgentPass 1; AgentPass 1])))
      1 = Some a' /\
    agent_name a' = "Price Hunter"%string /\
    false = false /\
    agent_running a' = false /\
    checks a' + Z.of_nat (loops_sleeping a') = 0 + Z.of_nat 1 /\
    0 <= checks a' <= 0 + Z.of_nat 1 /\
    (0 + 1 <= count_starts [Start; AgentBegin 1])%nat /\
    0 <= 0 <= Z.of_nat (count_passes 1 [Start; AgentBegin 1]).
Proof.
  apply (agent_checks_after_stop (fun s => s) [Start; AgentBegin 1]
           [AgentPass 1; AgentPass 1] 1
           (mkAutonomousAgent PriceHunter "Price Hunter" false 0 0 0 1));
    reflexivity.
Defined.

(** The sleep that was pending at [stop] ends in a check; a loop that
    had not begun before [stop] makes none. *)
Example check_after_stop :
  map checks
    (agents (brain_after (fun s => s)
               [Start; AgentBegin 1; Stop; AgentPass 1; AgentPass 1]))
    = [0; 1; 0; 0; 0] /\
  map checks
    (agents (brain_after (fun s => s)
               [Start; Stop; AgentBegin 1; AgentPass 1]))
    = [0; 0; 0; 0; 0].
Proof. split; reflexivity. Qed.
